(** * mbserver: the request-serialization engine of a Modbus slave

    A shallow embedding of [server.go]: the [Server] record with its four
    memory arrays and its 256-slot dispatch table, [NewServer],
    [RegisterFunctionHandler], [handle], the [handler] loop, [saveState] and
    [restoreState].

    Go mutates the server behind a pointer, writes to a log, to a file and to
    connections, and may leave the process through [log.Fatal].  Here every
    such function is a computation in the monad [M]: it takes the state of
    the world (the files on disk, the connections that are broken, the
    events observed so far) and either returns a value with a new world or
    exits the process.  A method that mutates its receiver returns the new
    receiver.  Every call the engine makes on a collaborator that lives
    outside [server.go] (the logger, a frame, a connection, the goroutine
    scheduler) is appended to the world's list of events, in program order. *)

From Stdlib Require Import NArith ZArith List String Lia Bool.
From Stdlib Require Import Strings.Byte.
From stdpp Require Import base tactics option list strings gmap.

Import ListNotations.
Local Open Scope N_scope.
Local Open Scope list_scope.

(** ** Exceptions

    [*Exception] values are compared by address in [handle], so a pointer is
    modelled by the variable it points to. *)

(** Modelled from the spec: the type [Exception] and the package-level
    variables [Success] and [IllegalFunction] are declared outside
    [server.go].  An exception is an enumerated protocol-level error code;
    [Success] and [IllegalFunction] are two distinguished variables of that
    type.  [OtherVar a] stands for any other variable of type [Exception],
    package-level or allocated by a handler, identified by its address. *)
Definition Exception := N.

Inductive ExceptionVar :=
| Success
| IllegalFunction
| OtherVar (a : nat).

(** [*Exception]: the nil pointer or the address of a variable. *)
Inductive ExceptionPtr :=
| NilPtr
| AddrOf (v : ExceptionVar).

#[global] Instance ExceptionVar_eq_dec : EqDecision ExceptionVar.
Proof. solve_decision. Defined.

#[global] Instance ExceptionPtr_eq_dec : EqDecision ExceptionPtr.
Proof. solve_decision. Defined.

(** The contents of the variables of type [Exception], and the value a
    pointer points to (nil points to nothing). *)
Definition Memory := ExceptionVar -> Exception.

Definition deref (m : Memory) (p : ExceptionPtr) : option Exception :=
  match p with
  | NilPtr => None
  | AddrOf v => Some (m v)
  end.

(** ** Function handlers *)

(** Modelled from the spec: the eight standard functions are declared
    outside [server.go]; only their names are needed here.  A [Handler] is a
    Go function value of type
    [func(s *Server, f Framer) ([]byte, *Exception)]: the dispatch table
    stores references to functions, one of the eight standard ones or
    [Custom n], a function supplied by the owning application.  What a
    function does when called is the parameter [Handlers] below. *)
Inductive Handler :=
| ReadCoils
| ReadDiscreteInputs
| ReadHoldingRegisters
| ReadInputRegisters
| WriteSingleCoil
| WriteHoldingRegister
| WriteMultipleCoils
| WriteHoldingRegisters
| Custom (n : nat).

#[global] Instance Handler_eq_dec : EqDecision Handler.
Proof. solve_decision. Defined.

(** ** The server *)

(** Handles of the collaborators a server or a request refers to. *)
Definition Listener := nat.
Definition Port := nat.
Definition Chan := nat.
Definition Conn := nat.

(** [type Server struct].  [function] is the array [[256]func(...)]: a list
    of 256 slots, [None] for a nil function value.  Bytes are [byte],
    [uint16] registers are numbers below 65536 (see [uint16s]). *)
Record Server := mkServer {
  Debug : bool;
  listeners : list Listener;
  ports : list Port;
  requestChan : option Chan;
  function : list (option Handler);
  DiscreteInputs : list byte;
  Coils : list byte;
  HoldingRegisters : list N;
  InputRegisters : list N
}.

(** Field assignments [s.f = v]. *)
Definition set_requestChan (v : option Chan) (s : Server) : Server :=
  mkServer (Debug s) (listeners s) (ports s) v (function s)
           (DiscreteInputs s) (Coils s) (HoldingRegisters s) (InputRegisters s).

Definition set_function (v : list (option Handler)) (s : Server) : Server :=
  mkServer (Debug s) (listeners s) (ports s) (requestChan s) v
           (DiscreteInputs s) (Coils s) (HoldingRegisters s) (InputRegisters s).

Definition set_DiscreteInputs (v : list byte) (s : Server) : Server :=
  mkServer (Debug s) (listeners s) (ports s) (requestChan s) (function s)
           v (Coils s) (HoldingRegisters s) (InputRegisters s).

Definition set_Coils (v : list byte) (s : Server) : Server :=
  mkServer (Debug s) (listeners s) (ports s) (requestChan s) (function s)
           (DiscreteInputs s) v (HoldingRegisters s) (InputRegisters s).

Definition set_HoldingRegisters (v : list N) (s : Server) : Server :=
  mkServer (Debug s) (listeners s) (ports s) (requestChan s) (function s)
           (DiscreteInputs s) (Coils s) v (InputRegisters s).

Definition set_InputRegisters (v : list N) (s : Server) : Server :=
  mkServer (Debug s) (listeners s) (ports s) (requestChan s) (function s)
           (DiscreteInputs s) (Coils s) (HoldingRegisters s) v.

(** [s.function[code]]: the function value in slot [code], [None] when it is
    nil.  A [uint8] code is always below 256, the length of the array. *)
Definition slot (s : Server) (code : N) : option Handler :=
  mjoin (function s !! N.to_nat code).

(** [type StateObject struct]: the four arrays, in the order of the source. *)
Module StateObject.
Record t := mk {
  DiscreteInputs : list byte;
  Coils : list byte;
  HoldingRegisters : list N;
  InputRegisters : list N
}.
End StateObject.

(** [type Request struct], over the type [F] of frames. *)
Record Request (F : Type) := mkRequest {
  conn : Conn;
  frame : F
}.
Arguments mkRequest {F} _ _.
Arguments conn {F} _.
Arguments frame {F} _.

(** The size of each memory array: [make([]T, 65536)]. *)
Definition memorySize : nat := N.to_nat 65536.

(** [make([]byte, n)] and [make([]uint16, n)]: [n] zero elements. *)
Definition make_bytes (n : nat) : list byte := replicate n x00.
Definition make_uint16s (n : nat) : list N := replicate n 0.

(** What the types [[]uint16] and [int] guarantee of a value: every element
    of a [[]uint16] is below 65536, and the length of a slice fits in Go's
    [int]. *)
Definition uint16s (l : list N) : Prop := Forall (fun x => x < 65536) l.

(** [len(l)]. *)
Definition len {A} (l : list A) : N := N.of_nat (length l).

Definition slice_len {A} (l : list A) : Prop := len l < 2 ^ 63.

Definition wellTyped (so : StateObject.t) : Prop :=
  slice_len (StateObject.DiscreteInputs so) /\
  slice_len (StateObject.Coils so) /\
  slice_len (StateObject.HoldingRegisters so) /\
  slice_len (StateObject.InputRegisters so) /\
  uint16s (StateObject.HoldingRegisters so) /\
  uint16s (StateObject.InputRegisters so).

(** The four arrays of a server all have 65536 elements. *)
Definition fullSize (s : Server) : Prop :=
  len (DiscreteInputs s) = 65536 /\
  len (Coils s) = 65536 /\
  len (HoldingRegisters s) = 65536 /\
  len (InputRegisters s) = 65536.

(** Two servers hold the same four arrays, element for element. *)
Definition sameMemory (s1 s2 : Server) : Prop :=
  DiscreteInputs s1 = DiscreteInputs s2 /\
  Coils s1 = Coils s2 /\
  HoldingRegisters s1 = HoldingRegisters s2 /\
  InputRegisters s1 = InputRegisters s2.

(** ** The world and the monad of effects *)

(** The errors [server.go] tests for. *)
Inductive Error :=
| ErrOpen
| ErrDecode
| ErrEncode
| ErrWriteFile
| ErrConnWrite.

(** The calls the engine makes on its collaborators. *)
Inductive Event :=
| LogPrintln (msg : string)
| LogFunction (code : N) (data : list byte)
| LogFatal (err : Error)
| FrameCopy
| FrameSetData (data : list byte)
| FrameSetException (e : ExceptionPtr)
| ConnWrite (c : Conn) (bs : list byte) (err : option Error)
| MakeChan (c : Chan)
| GoHandler.

(** A file on disk: its bytes, and whether the process may open it for
    reading. *)
Record File := mkFile {
  content : list byte;
  readable : bool
}.

(** How the working directory takes [ioutil.WriteFile]: the file is written
    in full; or it cannot be opened for writing; or it is opened, and so
    created or truncated, and the write fails once [n] bytes are stored. *)
Inductive Disk :=
| DiskAccepts
| DiskRefuses
| DiskFailsAfter (n : nat).

(** The state of the world: the files by path, how the working directory
    takes a write, the connections whose [Write] fails, the next unused
    channel handle, and the events so far, oldest first. *)
Record World := mkWorld {
  fs : gmap string File;
  disk : Disk;
  broken : list Conn;
  nextChan : Chan;
  events : list Event
}.

(** A file written in this world is written in full. *)
Definition writable (w : World) : bool :=
  match disk w with
  | DiskAccepts => true
  | _ => false
  end.

Definition set_fs (v : gmap string File) (w : World) : World :=
  mkWorld v (disk w) (broken w) (nextChan w) (events w).

Definition emit (es : list Event) (w : World) : World :=
  mkWorld (fs w) (disk w) (broken w) (nextChan w) (events w ++ es).

(** A computation returns a value in a new world, or the process exits
    ([os.Exit], reached through [log.Fatal]) with a status code. *)
Inductive Outcome (A : Type) :=
| Return (a : A) (w : World)
| Exit (code : N) (w : World).
Arguments Return {A} _ _.
Arguments Exit {A} _ _.

Definition M (A : Type) : Type := World -> Outcome A.

Definition ret {A} (a : A) : M A := fun w => Return a w.

Definition bind {A B} (m : M A) (k : A -> M B) : M B :=
  fun w => match m w with
           | Return a w' => k a w'
           | Exit c w' => Exit c w'
           end.

Notation "'do' x <- c1 ; c2" := (bind c1 (fun x => c2))
  (at level 10, x name, c1 at level 100, c2 at level 200).
Notation "'do' ' pat <- c1 ; c2" :=
  (bind c1 (fun x => match x with pat => c2 end))
  (at level 10, pat pattern, c1 at level 100, c2 at level 200).
Notation "c1 ;; c2" := (bind c1 (fun _ => c2))
  (at level 100, c2 at level 200, right associativity).

(** The logger. [log.Fatal] prints and calls [os.Exit(1)]; deferred calls do
    not run. *)
Definition log_Println (msg : string) : M unit :=
  fun w => Return tt (emit [LogPrintln msg] w).

Definition log_Printf_function (code : N) (data : list byte) : M unit :=
  fun w => Return tt (emit [LogFunction code data] w).

Definition log_Fatal {A} (err : Error) : M A :=
  fun w => Exit 1 (emit [LogFatal err] w).

(** [os.Stat(path)] followed by [os.IsNotExist(err)]. *)
Definition os_IsNotExist (path : string) : M bool :=
  fun w => Return (bool_decide (fs w !! path = None)) w.

(** [os.Open(path)], with the bytes a reader of the file yields. *)
Definition os_Open (path : string) : M (list byte + Error) :=
  fun w => match fs w !! path with
           | Some f => Return (if readable f then inl (content f) else inr ErrOpen) w
           | None => Return (inr ErrOpen) w
           end.

(** [ioutil.WriteFile(path, data, 0644)]: the file is opened with
    [O_WRONLY|O_CREATE|O_TRUNC], the data written, the file closed.  When
    the open fails no file changes; when the write fails the file is left
    with the bytes stored so far.  A new file is readable (mode 0644), an
    existing one keeps its mode. *)
Definition ioutil_WriteFile (path : string) (data : list byte) : M (option Error) :=
  fun w =>
    let r := match fs w !! path with Some f => readable f | None => true end in
    match disk w with
    | DiskAccepts =>
        Return None (set_fs (<[path := mkFile data r]> (fs w)) w)
    | DiskRefuses =>
        Return (Some ErrWriteFile) w
    | DiskFailsAfter n =>
        Return (Some ErrWriteFile) (set_fs (<[path := mkFile (take n data) r]> (fs w)) w)
    end.

(** [conn.Write(bs)]: the number of bytes written and the error. *)
Definition conn_Write (c : Conn) (bs : list byte) : M (nat * option Error) :=
  fun w =>
    if bool_decide (c ∈ broken w)
    then Return (0%nat, Some ErrConnWrite) (emit [ConnWrite c bs (Some ErrConnWrite)] w)
    else Return (length bs, None) (emit [ConnWrite c bs None] w).

(** [make(chan *Request)]. *)
Definition make_chan : M Chan :=
  fun w => Return (nextChan w)
             (mkWorld (fs w) (disk w) (broken w) (S (nextChan w))
                      (events w ++ [MakeChan (nextChan w)])).

(** [go s.handler()]: the loop of [handler] starts. *)
Definition go_handler : M unit :=
  fun w => Return tt (emit [GoHandler] w).

(** ** The collaborators of the engine *)

(** Modelled from the spec: the interface [Framer] is declared outside
    [server.go]; these are the six methods of the frame capability.
    [SetData] and [SetException] mutate their receiver: here they return the
    frame after the call. *)
Class Framer (F : Type) := {
  GetFunction : F -> N;
  GetData : F -> list byte;
  Copy : F -> F;
  SetData : list byte -> F -> F;
  SetException : ExceptionPtr -> F -> F;
  Bytes : F -> list byte
}.

(** What calling a function value does: from the server and the request
    frame, the payload, the exception and the server as the call leaves
    it.  A function is taken to return, and to act on nothing but the
    server it is given: one that panics, exits the process, blocks or
    touches the files is outside this interface. *)
Class Handlers (F : Type) :=
  call : Handler -> Server -> F -> list byte * ExceptionPtr * Server.

(** The two calls of [encoding/gob] the engine makes: [Encode] of a
    [StateObject] into a buffer, and [Decode] of the bytes of a file into a
    zero [StateObject]; [None] is a non-nil error. *)
Class Gob := {
  gobEncode : StateObject.t -> option (list byte);
  gobDecode : list byte -> option StateObject.t
}.

(** The contract of the library: a well-typed value is encoded without
    error, and decoding the bytes gives the value back. *)
Class GobLawful `{Gob} : Prop :=
  gob_round_trip : forall so, wellTyped so ->
    exists bs, gobEncode so = Some bs /\ gobDecode bs = Some so.

(** The three mutating or copying frame methods, with the call recorded. *)
Definition frame_Copy {F} `{Framer F} (f : F) : M F :=
  fun w => Return (Copy f) (emit [FrameCopy] w).

Definition frame_SetData {F} `{Framer F} (data : list byte) (f : F) : M F :=
  fun w => Return (SetData data f) (emit [FrameSetData data] w).

Definition frame_SetException {F} `{Framer F} (e : ExceptionPtr) (f : F) : M F :=
  fun w => Return (SetException e f) (emit [FrameSetException e] w).

(** ** The engine *)

Definition checkpointFile : string := "modbus.state".

(** The assignment [s.function[code] = f]. *)
Definition assign_function (code : N) (f : option Handler) (s : Server) : Server :=
  set_function (<[N.to_nat code := f]> (function s)) s.

(** [func (s *Server) RegisterFunctionHandler(funcCode uint8, function func(...))] *)
Definition RegisterFunctionHandler (funcCode : N) (f : option Handler) (s : Server) : Server :=
  assign_function funcCode f s.

(** The snapshot [saveState] builds from the server. *)
Definition snapshot (s : Server) : StateObject.t :=
  StateObject.mk (DiscreteInputs s) (Coils s) (HoldingRegisters s) (InputRegisters s).

(** The four assignments at the end of [restoreState]. *)
Definition overwrite (so : StateObject.t) (s : Server) : Server :=
  let s := set_DiscreteInputs (StateObject.DiscreteInputs so) s in
  let s := set_Coils (StateObject.Coils so) s in
  let s := set_HoldingRegisters (StateObject.HoldingRegisters so) s in
  set_InputRegisters (StateObject.InputRegisters so) s.

Section Checkpoint.
Context {gob : Gob}.

(** [func (s *Server) saveState()]. The deferred [log.Println("done")] runs
    when the function returns, and not when [log.Fatal] exits. *)
Definition saveState (s : Server) : M unit :=
  log_Println "saving state . . ." ;;
  let so := snapshot s in
  match gobEncode so with
  | None => log_Fatal ErrEncode
  | Some buf =>
      do err <- ioutil_WriteFile checkpointFile buf;
      match err with
      | Some e => log_Fatal e
      | None => log_Println "done"
      end
  end.

(** [func (s *Server) restoreState()]. *)
Definition restoreState (s : Server) : M Server :=
  log_Println "restoring state . . ." ;;
  do absent <- os_IsNotExist checkpointFile;
  do s <-
    (if negb absent then
       do f <- os_Open checkpointFile;
       match f with
       | inr e => log_Fatal e
       | inl bs =>
           match gobDecode bs with
           | None => log_Fatal ErrDecode
           | Some so => ret (overwrite so s)
           end
       end
     else ret s);
  log_Println "done" ;;
  ret s.

(** The zero value [&Server{}]. *)
Definition zeroServer : Server :=
  mkServer false [] [] None (replicate 256 None) [] [] [] [].

(** The server of [NewServer] as it stands before [restoreState] is
    called: the memory allocated and the default functions added. *)
Definition allocated : Server :=
  let s := zeroServer in
  let s := set_DiscreteInputs (make_bytes memorySize) s in
  let s := set_Coils (make_bytes memorySize) s in
  let s := set_HoldingRegisters (make_uint16s memorySize) s in
  let s := set_InputRegisters (make_uint16s memorySize) s in
  let s := assign_function 1 (Some ReadCoils) s in
  let s := assign_function 2 (Some ReadDiscreteInputs) s in
  let s := assign_function 3 (Some ReadHoldingRegisters) s in
  let s := assign_function 4 (Some ReadInputRegisters) s in
  let s := assign_function 5 (Some WriteSingleCoil) s in
  let s := assign_function 6 (Some WriteHoldingRegister) s in
  let s := assign_function 15 (Some WriteMultipleCoils) s in
  assign_function 16 (Some WriteHoldingRegisters) s.

(** [func NewServer() *Server]. *)
Definition NewServer : M Server :=
  let s := allocated in
  do s <- restoreState s;
  do c <- make_chan;
  let s := set_requestChan (Some c) s in
  go_handler ;;
  ret s.

End Checkpoint.

Section Dispatch.
Context {F : Type} {framer : Framer F} {handlers : Handlers F}.

(** [func (s *Server) handle(request *Request) Framer], returning the
    response and the server as the call leaves it. *)
Definition handle (s : Server) (request : Request F) : M (F * Server) :=
  log_Printf_function (GetFunction (frame request)) (GetData (frame request)) ;;
  do response <- frame_Copy (frame request);
  let code := GetFunction (frame request) in
  do '(response, exception, s) <-
    match slot s code with
    | Some h =>
        let '(data, exception, s) := call h s (frame request) in
        do response <- frame_SetData data response;
        ret (response, exception, s)
    | None => ret (response, AddrOf IllegalFunction, s)
    end;
  if decide (exception <> AddrOf Success) then
    do response <- frame_SetException exception response;
    ret (response, s)
  else ret (response, s).

(** The body of the loop of [handler], for the request received from
    [s.requestChan]: the two results of [Write] are dropped. *)
Definition serve (s : Server) (request : Request F) : M Server :=
  do '(response, s) <- handle s request;
  conn_Write (conn request) (Bytes response) ;;
  ret s.

(** [func (s *Server) handler()], over the requests the channel delivers, in
    the order it delivers them.  The loop of the source has no exit: once
    the requests delivered so far are served it waits for the next one. *)
Fixpoint handler (s : Server) (requests : list (Request F)) : M Server :=
  match requests with
  | [] => ret s
  | request :: rest => do s <- serve s request; handler s rest
  end.

End Dispatch.

(** ** A reference codec

    An executable instance of [Gob] in the style of gob's encoding of
    values: an unsigned integer below 128 is one byte, a larger one is its
    minimal big-endian bytes preceded by their count, negated; a byte slice
    is its length and its bytes; any other slice is its length and its
    elements; a struct is, for each field that is not empty, the distance
    from the previous field sent and the field's value, closed by a zero.
    A field that is left out keeps the zero value of the decoded struct.
    The type descriptions that open a gob stream are left out. *)
Module RefGob.

Definition byte_of_N (n : N) : byte := default x00 (Byte.of_N (n mod 256)).

(** The big-endian bytes of [n] in front of [acc], without leading zeros,
    [fuel] bytes at most. *)
Fixpoint be_bytes (fuel : nat) (n : N) (acc : list byte) : list byte :=
  match fuel with
  | O => acc
  | S fuel => if n =? 0 then acc else be_bytes fuel (n / 256) (byte_of_N n :: acc)
  end.

Definition be_value (bs : list byte) : N :=
  fold_left (fun acc b => acc * 256 + Byte.to_N b) bs 0.

Definition encodeUint (n : N) : list byte :=
  if n <? 128 then [byte_of_N n]
  else let bs := be_bytes 8 n [] in
       byte_of_N (256 - N.of_nat (length bs)) :: bs.

Definition decodeUint (bs : list byte) : option (N * list byte) :=
  match bs with
  | [] => None
  | b :: rest =>
      let v := Byte.to_N b in
      if v <? 128 then Some (v, rest)
      else
        let n := N.to_nat (256 - v) in
        if (8 <? n)%nat then None
        else if (length rest <? n)%nat then None
        else Some (be_value (take n rest), drop n rest)
  end.

Definition encodeBytes (l : list byte) : list byte :=
  encodeUint (N.of_nat (length l)) ++ l.

Definition decodeBytes (bs : list byte) : option (list byte * list byte) :=
  match decodeUint bs with
  | None => None
  | Some (n, rest) =>
      if (length rest <? N.to_nat n)%nat then None
      else Some (take (N.to_nat n) rest, drop (N.to_nat n) rest)
  end.

Definition encodeUint16s (l : list N) : list byte :=
  encodeUint (N.of_nat (length l)) ++ flat_map encodeUint l.

(** [count] elements of type [uint16], each refused when it overflows. *)
Fixpoint decodeElems (count : nat) (bs : list byte) : option (list N * list byte) :=
  match count with
  | O => Some ([], bs)
  | S count =>
      match decodeUint bs with
      | None => None
      | Some (x, rest) =>
          if 65536 <=? x then None
          else match decodeElems count rest with
               | None => None
               | Some (xs, rest') => Some (x :: xs, rest')
               end
      end
  end.

Definition decodeUint16s (bs : list byte) : option (list N * list byte) :=
  match decodeUint bs with
  | None => None
  | Some (n, rest) =>
      if (length rest <? N.to_nat n)%nat then None
      else decodeElems (N.to_nat n) rest
  end.

(** A field of the struct is sent as the distance [field + 1 - next] from
    the field sent before it, [next] being the number after that field. *)
Definition encodeField (next field : N) (empty : bool) (value rest : N -> list byte)
  : list byte :=
  if empty then rest next
  else encodeUint (field + 1 - next) ++ value 0 ++ rest (field + 1).

Definition is_nil {A} (l : list A) : bool :=
  match l with [] => true | _ => false end.

Definition encode (so : StateObject.t) : list byte :=
  encodeField 0 0 (is_nil (StateObject.DiscreteInputs so))
    (fun _ => encodeBytes (StateObject.DiscreteInputs so)) (fun next =>
  encodeField next 1 (is_nil (StateObject.Coils so))
    (fun _ => encodeBytes (StateObject.Coils so)) (fun next =>
  encodeField next 2 (is_nil (StateObject.HoldingRegisters so))
    (fun _ => encodeUint16s (StateObject.HoldingRegisters so)) (fun next =>
  encodeField next 3 (is_nil (StateObject.InputRegisters so))
    (fun _ => encodeUint16s (StateObject.InputRegisters so)) (fun _ =>
  [x00])))).

Definition set_field_bytes (field : N) (l : list byte) (so : StateObject.t)
  : option StateObject.t :=
  match field with
  | 0 => Some (StateObject.mk l (StateObject.Coils so)
                 (StateObject.HoldingRegisters so) (StateObject.InputRegisters so))
  | 1 => Some (StateObject.mk (StateObject.DiscreteInputs so) l
                 (StateObject.HoldingRegisters so) (StateObject.InputRegisters so))
  | _ => None
  end.

Definition set_field_uint16s (field : N) (l : list N) (so : StateObject.t)
  : option StateObject.t :=
  match field with
  | 2 => Some (StateObject.mk (StateObject.DiscreteInputs so) (StateObject.Coils so)
                 l (StateObject.InputRegisters so))
  | 3 => Some (StateObject.mk (StateObject.DiscreteInputs so) (StateObject.Coils so)
                 (StateObject.HoldingRegisters so) l)
  | _ => None
  end.

(** The fields of a struct, one per unit of [fuel], up to the closing
    zero. *)
Fixpoint decodeFields (fuel : nat) (next : N) (so : StateObject.t) (bs : list byte)
  : option StateObject.t :=
  match fuel with
  | O => None
  | S fuel =>
      match decodeUint bs with
      | None => None
      | Some (delta, rest) =>
          if delta =? 0 then Some so
          else
            let field := next + delta - 1 in
            if field <? 2 then
              match decodeBytes rest with
              | None => None
              | Some (l, rest') =>
                  match set_field_bytes field l so with
                  | None => None
                  | Some so' => decodeFields fuel (field + 1) so' rest'
                  end
              end
            else
              match decodeUint16s rest with
              | None => None
              | Some (l, rest') =>
                  match set_field_uint16s field l so with
                  | None => None
                  | Some so' => decodeFields fuel (field + 1) so' rest'
                  end
              end
      end
  end.

Definition decode (bs : list byte) : option StateObject.t :=
  decodeFields 5 0 (StateObject.mk [] [] [] []) bs.

#[global] Instance codec : Gob := {|
  gobEncode so := Some (encode so);
  gobDecode := decode
|}.

End RefGob.

(** ** Concrete collaborators

    A frame type, a set of handlers and a few worlds on which the engine
    can be run. *)
Module Scenario.

(** A frame that keeps what was set on it. *)
Record TestFrame := mkTestFrame {
  tf_function : N;
  tf_data : list byte;
  tf_exception : ExceptionPtr
}.

#[global] Instance TestFrame_Framer : Framer TestFrame := {|
  GetFunction := tf_function;
  GetData := tf_data;
  Copy f := f;
  SetData d f := mkTestFrame (tf_function f) d (tf_exception f);
  SetException e f := mkTestFrame (tf_function f) (tf_data f) e;
  Bytes f := RefGob.byte_of_N (tf_function f) :: tf_data f
|}.

(** [Custom 0] answers two fixed bytes; [Custom 1] answers a pointer to a
    variable of its own; [Custom 2] stores 1234 in holding register 100;
    [Custom 3] replaces the coils by an empty slice; every other function
    answers nothing and succeeds. *)
#[global] Instance testHandlers : Handlers TestFrame := fun h s f =>
  match h with
  | Custom 0 => ([xaa; xbb], AddrOf Success, s)
  | Custom 1 => ([x01], AddrOf (OtherVar 7), s)
  | Custom 2 => ([], AddrOf Success,
                 set_HoldingRegisters (<[100%nat := 1234]> (HoldingRegisters s)) s)
  | Custom 3 => ([], AddrOf Success, set_Coils [] s)
  | _ => ([], AddrOf Success, s)
  end.

(** A memory in which the variable at address 7 holds the same code as
    [Success]. *)
Definition testMemory : Memory := fun v =>
  match v with
  | Success => 0
  | IllegalFunction => 1
  | OtherVar 7 => 0
  | OtherVar _ => 4
  end.

(** No file on disk, every connection but number 9 in order. *)
Definition freshWorld : World := mkWorld ∅ DiskAccepts [9%nat] 0%nat [].

(** A world whose checkpoint file holds [bs]. *)
Definition worldWith (bs : list byte) : World :=
  mkWorld {[ checkpointFile := mkFile bs true ]} DiskAccepts [9%nat] 0%nat [].

(** A state with one element in each array. *)
Definition shortState : StateObject.t := StateObject.mk [x01] [x02] [3] [4].

(** A server with a few values stored. *)
Definition storedServer : Server :=
  set_HoldingRegisters (<[100%nat := 1234]> (HoldingRegisters allocated))
    (set_Coils (<[5%nat := x01]> (Coils allocated)) allocated).

Definition request (code : N) (c : Conn) : Request TestFrame :=
  mkRequest c (mkTestFrame code [x00; x64] NilPtr).

End Scenario.

(** ** Notions the properties are stated with *)

(** The table of standard function codes. *)
Definition defaultFunction (code : N) : option Handler :=
  match code with
  | 1 => Some ReadCoils
  | 2 => Some ReadDiscreteInputs
  | 3 => Some ReadHoldingRegisters
  | 4 => Some ReadInputRegisters
  | 5 => Some WriteSingleCoil
  | 6 => Some WriteHoldingRegister
  | 15 => Some WriteMultipleCoils
  | 16 => Some WriteHoldingRegisters
  | _ => None
  end.

(** The four arrays of a snapshot all have 65536 elements. *)
Definition fullState (so : StateObject.t) : Prop :=
  len (StateObject.DiscreteInputs so) = 65536 /\
  len (StateObject.Coils so) = 65536 /\
  len (StateObject.HoldingRegisters so) = 65536 /\
  len (StateObject.InputRegisters so) = 65536.

(** A call on the logger. *)
Definition isLog (e : Event) : bool :=
  match e with
  | LogPrintln _ | LogFunction _ _ | LogFatal _ => true
  | _ => false
  end.

(** Within the events of one turn of the loop: a [Write] that failed is
    followed by a call on the logger. *)
Fixpoint writeFailureLogged (es : list Event) : bool :=
  match es with
  | [] => false
  | ConnWrite _ _ (Some _) :: rest => existsb isLog rest || writeFailureLogged rest
  | _ :: rest => writeFailureLogged rest
  end.

(** The events [handle] adds when the function of the request answers
    [data] and [exception]. *)
Definition handledEvents (code : N) (payload data : list byte) (exception : ExceptionPtr)
  : list Event :=
  [LogFunction code payload; FrameCopy; FrameSetData data]
  ++ (if decide (exception = AddrOf Success) then [] else [FrameSetException exception]).

(** ** Closing the transports *)

(** A call of [Close] on a listener or on a port, and whether it answered
    an error. *)
Inductive CloseCall :=
| ListenerClose (l : Listener) (failed : bool)
| PortClose (p : Port) (failed : bool).

(** The transports: the listeners and the ports whose [Close] answers an
    error, and the calls of [Close] so far, oldest first. *)
Record Transports := mkTransports {
  badListeners : list Listener;
  badPorts : list Port;
  closeCalls : list CloseCall
}.

(** [listen.Close()] and [port.Close()], each with the error it answers. *)
Definition listener_Close (l : Listener) (t : Transports) : bool * Transports :=
  let failed := bool_decide (l ∈ badListeners t) in
  (failed, mkTransports (badListeners t) (badPorts t)
             (closeCalls t ++ [ListenerClose l failed])).

Definition port_Close (p : Port) (t : Transports) : bool * Transports :=
  let failed := bool_decide (p ∈ badPorts t) in
  (failed, mkTransports (badListeners t) (badPorts t)
             (closeCalls t ++ [PortClose p failed])).

(** [func (s *Server) Close()]: the two loops, each dropping the error of
    the call. *)
Definition Close (s : Server) (t : Transports) : Transports :=
  let t := fold_left (fun t listen => snd (listener_Close listen t)) (listeners s) t in
  fold_left (fun t port => snd (port_Close port t)) (ports s) t.

(** ** Notions for the loop *)

(** The connections written to, in the order of the writes. *)
Definition writesOf (es : list Event) : list Conn :=
  flat_map (fun e => match e with ConnWrite c _ _ => [c] | _ => [] end) es.

(** The writes among the events, in order. *)
Definition writeEvents (es : list Event) : list Event :=
  List.filter (fun e => match e with ConnWrite _ _ _ => true | _ => false end) es.

(** The error [Write] answers on connection [c] in the world [w]. *)
Definition writeError (w : World) (c : Conn) : option Error :=
  if bool_decide (c ∈ broken w) then Some ErrConnWrite else None.

Section Turns.
Context {F : Type} {framer : Framer F}.

(** The events of the turn of the loop that serves a request whose code has
    no function: the log line, the copy, the exception, the write. *)
Definition illegalTurn (w : World) (request : Request F) : list Event :=
  [LogFunction (GetFunction (frame request)) (GetData (frame request));
   FrameCopy;
   FrameSetException (AddrOf IllegalFunction);
   ConnWrite (conn request)
     (Bytes (SetException (AddrOf IllegalFunction) (Copy (frame request))))
     (writeError w (conn request))].

(** [response] is built on the copy of the frame of [request], by the calls
    [handle] makes: [SetException] alone, [SetData] alone, or [SetData]
    and then [SetException]. *)
Definition answers (request : Request F) (response : F) : Prop :=
  (exists e, response = SetException e (Copy (frame request))) \/
  (exists data, response = SetData data (Copy (frame request))) \/
  (exists data e, response = SetException e (SetData data (Copy (frame request)))).

End Turns.

Section Answers.
Context {F : Type} {framer : Framer F} {handlers : Handlers F}.

(** The response to a request and the server it leaves, without the
    events: the copy of the frame with [IllegalFunction] set when the code
    has no function; otherwise the copy with the payload the function
    answered, and its exception when that is not the address of
    [Success], and the server the function left. *)
Definition answer (s : Server) (request : Request F) : F * Server :=
  match slot s (GetFunction (frame request)) with
  | None => (SetException (AddrOf IllegalFunction) (Copy (frame request)), s)
  | Some h =>
      let '(data, exception, s') := call h s (frame request) in
      (if decide (exception = AddrOf Success)
       then SetData data (Copy (frame request))
       else SetException exception (SetData data (Copy (frame request))),
       s')
  end.

(** The responses to the requests of a queue, each computed on the server
    the requests before it left, and the server the last one leaves. *)
Fixpoint answerAll (s : Server) (requests : list (Request F)) : list F * Server :=
  match requests with
  | [] => ([], s)
  | request :: rest =>
      let '(response, s1) := answer s request in
      let '(responses, s') := answerAll s1 rest in
      (response :: responses, s')
  end.

End Answers.

(** More worlds and servers to run the engine on. *)
Module Cases.

(** A working directory that refuses writes. *)
Definition readOnlyWorld : World := mkWorld ∅ DiskRefuses [] 0%nat [].

(** A checkpoint file that cannot be opened, beside another file. *)
Definition lockedWorld : World :=
  mkWorld {[ checkpointFile := mkFile [x01] false; "other.txt" := mkFile [x07] true ]}
          DiskAccepts [] 0%nat [].

(** Another file on disk, and no checkpoint. *)
Definition otherFileWorld : World :=
  mkWorld {[ "other.txt" := mkFile [x07] true ]} DiskAccepts [9%nat] 0%nat [].

(** The checkpoint of a server with two values stored. *)
Definition savedWorld : World :=
  Scenario.worldWith (RefGob.encode (snapshot Scenario.storedServer)).

(** A checkpoint and another file on a disk where a write fails once three
    bytes are stored. *)
Definition fullDiskWorld : World :=
  mkWorld {[ checkpointFile := mkFile (RefGob.encode Scenario.shortState) true;
             "other.txt" := mkFile [x07] true ]}
          (DiskFailsAfter 3) [] 0%nat [].

(** A server with two listeners and a port. *)
Definition listening : Server :=
  mkServer false [4%nat; 5%nat] [6%nat] None (function allocated) [] [] [] [].

(** Listener 4 answers an error when closed. *)
Definition transports : Transports := mkTransports [4%nat] [] [].

(** Three requests: two for code 99 on connections 9 and 1, one for code
    200 on connection 2. *)
Definition queue : list (Request Scenario.TestFrame) :=
  [Scenario.request 99 9%nat; Scenario.request 99 1%nat; Scenario.request 200 2%nat].

(** A new server on which the function that stores 1234 in holding
    register 100 is registered for code 65. *)
Definition writer : Server := RegisterFunctionHandler 65 (Some (Custom 2)) allocated.

(** That server once the function has stored the value. *)
Definition written : Server :=
  set_HoldingRegisters (<[100%nat := 1234]> (HoldingRegisters writer)) writer.

End Cases.

(** Membership of an event in an explicit list of events. *)
Ltac event_mem :=
  rewrite ?elem_of_app, ?elem_of_cons, ?elem_of_nil;
  intuition (try discriminate; try congruence).

(** * Properties *)

(** ** The reference codec gives back what it encodes *)

Lemma byte_of_N_value (n : N) : Byte.to_N (RefGob.byte_of_N n) = n mod 256.
Proof.
  unfold RefGob.byte_of_N.
  destruct (Byte.of_N (n mod 256)) as [b|] eqn:E; simpl.
  - now apply Byte.to_of_N.
  - apply Byte.of_N_None_iff in E.
    pose proof (N.mod_upper_bound n 256). lia.
Qed.

Lemma be_value_from (l : list byte) (a : N) :
  fold_left (fun acc b => acc * 256 + Byte.to_N b) l a
  = a * 256 ^ len l + RefGob.be_value l.
Proof.
  unfold RefGob.be_value, len. revert a.
  induction l as [|b l IH]; intros a.
  - cbn [fold_left length]. change (N.of_nat 0) with 0. rewrite N.pow_0_r. lia.
  - cbn [fold_left length]. rewrite IH, (IH (0 * 256 + Byte.to_N b)).
    rewrite Nat2N.inj_succ, N.pow_succ_r'. lia.
Qed.

Lemma be_value_cons (b : byte) (l : list byte) :
  RefGob.be_value (b :: l) = Byte.to_N b * 256 ^ len l + RefGob.be_value l.
Proof.
  unfold RefGob.be_value at 1. cbn [fold_left].
  rewrite be_value_from. lia.
Qed.

Lemma be_bytes_value (fuel : nat) : forall (n : N) (acc : list byte),
  n < 256 ^ N.of_nat fuel ->
  RefGob.be_value (RefGob.be_bytes fuel n acc)
  = n * 256 ^ len acc + RefGob.be_value acc.
Proof.
  induction fuel as [|fuel IH]; intros n acc Hn.
  - change (N.of_nat 0) with 0 in Hn. rewrite N.pow_0_r in Hn.
    cbn [RefGob.be_bytes]. lia.
  - cbn [RefGob.be_bytes]. destruct (N.eqb_spec n 0) as [->|Hnz]; [lia|].
    rewrite Nat2N.inj_succ, N.pow_succ_r' in Hn.
    rewrite IH by (apply N.Div0.div_lt_upper_bound; lia).
    rewrite be_value_cons, byte_of_N_value.
    unfold len. cbn [length]. rewrite Nat2N.inj_succ, N.pow_succ_r'.
    pose proof (N.div_mod' n 256) as E.
    set (p := 256 ^ N.of_nat (length acc)).
    rewrite E at 3. ring.
Qed.

Lemma be_bytes_length (fuel : nat) : forall (n : N) (acc : list byte),
  (length acc <= length (RefGob.be_bytes fuel n acc) <= fuel + length acc)%nat.
Proof.
  induction fuel as [|fuel IH]; intros n acc; cbn [RefGob.be_bytes].
  - lia.
  - destruct (n =? 0); [lia|].
    specialize (IH (n / 256) (RefGob.byte_of_N n :: acc)). cbn [length] in IH. lia.
Qed.

Lemma be_bytes_nonempty (fuel : nat) (n : N) :
  n <> 0 -> (1 <= length (RefGob.be_bytes (S fuel) n []))%nat.
Proof.
  intros Hn. cbn [RefGob.be_bytes].
  destruct (N.eqb_spec n 0) as [?|_]; [contradiction|].
  pose proof (be_bytes_length fuel (n / 256) [RefGob.byte_of_N n]) as L.
  cbn [length] in L. lia.
Qed.

Lemma decodeUint_encodeUint (n : N) (rest : list byte) :
  n < 2 ^ 64 ->
  RefGob.decodeUint (RefGob.encodeUint n ++ rest) = Some (n, rest).
Proof.
  intros Hn. unfold RefGob.encodeUint.
  destruct (N.ltb_spec n 128) as [Hs|Hl].
  - cbn [app RefGob.decodeUint]. rewrite byte_of_N_value, N.mod_small by lia.
    destruct (N.ltb_spec n 128); [reflexivity|lia].
  - cbv zeta. set (bs := RefGob.be_bytes 8 n []).
    assert (1 <= length bs <= 8)%nat as L.
    { pose proof (be_bytes_length 8 n []) as L1.
      pose proof (be_bytes_nonempty 7 n) as L2.
      cbn [length] in L1. subst bs. lia. }
    assert (RefGob.be_value bs = n) as V.
    { subst bs. rewrite be_bytes_value.
      - unfold len. cbn [length]. change (N.of_nat 0) with 0.
        rewrite N.pow_0_r. change (RefGob.be_value []) with 0. lia.
      - change (256 ^ N.of_nat 8) with (2 ^ 64). exact Hn. }
    cbn [app RefGob.decodeUint]. rewrite byte_of_N_value.
    rewrite (N.mod_small (256 - N.of_nat (length bs))) by lia.
    destruct (N.ltb_spec (256 - N.of_nat (length bs)) 128); [lia|].
    cbv zeta.
    replace (N.to_nat (256 - (256 - N.of_nat (length bs)))) with (length bs) by lia.
    destruct (Nat.ltb_spec 8 (length bs)); [lia|].
    destruct (Nat.ltb_spec (length (bs ++ rest)) (length bs)) as [Hc|_].
    { rewrite length_app in Hc. lia. }
    now rewrite take_app_length, drop_app_length, V.
Qed.

Lemma encodeUint_nonempty (n : N) : (1 <= length (RefGob.encodeUint n))%nat.
Proof.
  unfold RefGob.encodeUint. destruct (n <? 128); cbn [length]; lia.
Qed.

Lemma slice_len_uint {A} (l : list A) : slice_len l -> len l < 2 ^ 64.
Proof.
  unfold slice_len. intros Hl.
  apply (N.lt_trans _ _ _ Hl). now vm_compute.
Qed.

Lemma decodeBytes_encodeBytes (l rest : list byte) :
  slice_len l ->
  RefGob.decodeBytes (RefGob.encodeBytes l ++ rest) = Some (l, rest).
Proof.
  intros Hl. unfold RefGob.decodeBytes, RefGob.encodeBytes.
  rewrite <- app_assoc, decodeUint_encodeUint by now apply slice_len_uint.
  fold (len l). unfold len. rewrite Nat2N.id.
  destruct (Nat.ltb_spec (length (l ++ rest)) (length l)) as [Hc|_].
  { rewrite length_app in Hc. lia. }
  now rewrite take_app_length, drop_app_length.
Qed.

Lemma decodeElems_encode (l : list N) (rest : list byte) :
  uint16s l ->
  RefGob.decodeElems (length l) (flat_map RefGob.encodeUint l ++ rest)
  = Some (l, rest).
Proof.
  intros Hl. induction Hl as [|x l Hx _ IH]; [reflexivity|].
  cbn [length flat_map RefGob.decodeElems].
  rewrite <- app_assoc, decodeUint_encodeUint.
  - destruct (N.leb_spec 65536 x); [lia|]. now rewrite IH.
  - apply (N.lt_trans _ _ _ Hx). now vm_compute.
Qed.

Lemma encoded_elems_length (l : list N) :
  (length l <= length (flat_map RefGob.encodeUint l))%nat.
Proof.
  induction l as [|x l IH]; cbn [flat_map length]; [lia|].
  rewrite length_app. pose proof (encodeUint_nonempty x). lia.
Qed.

Lemma decodeUint16s_encodeUint16s (l : list N) (rest : list byte) :
  slice_len l -> uint16s l ->
  RefGob.decodeUint16s (RefGob.encodeUint16s l ++ rest) = Some (l, rest).
Proof.
  intros Hl Hu. unfold RefGob.decodeUint16s, RefGob.encodeUint16s.
  rewrite <- app_assoc, decodeUint_encodeUint by now apply slice_len_uint.
  fold (len l). unfold len. rewrite Nat2N.id.
  destruct (Nat.ltb_spec (length (flat_map RefGob.encodeUint l ++ rest)) (length l))
    as [Hc|_].
  { rewrite length_app in Hc. pose proof (encoded_elems_length l). lia. }
  now apply decodeElems_encode.
Qed.

(** One field of the stream: its distance, its value, and the fields after
    it. *)
Lemma decodeFields_bytes (fuel : nat) (next field : N) (so : StateObject.t)
    (l rest : list byte) :
  next <= field -> field < 2 -> slice_len l ->
  RefGob.decodeFields (S fuel) next so
    (RefGob.encodeUint (field + 1 - next) ++ RefGob.encodeBytes l ++ rest)
  = match RefGob.set_field_bytes field l so with
    | Some so' => RefGob.decodeFields fuel (field + 1) so' rest
    | None => None
    end.
Proof.
  intros Hn Hf Hl. cbn [RefGob.decodeFields].
  rewrite decodeUint_encodeUint.
  2:{ apply (N.lt_trans _ 3); [lia | now vm_compute]. }
  destruct (N.eqb_spec (field + 1 - next) 0); [lia|].
  cbv zeta. replace (next + (field + 1 - next) - 1) with field by lia.
  destruct (N.ltb_spec field 2); [|lia].
  now rewrite decodeBytes_encodeBytes.
Qed.

Lemma decodeFields_uint16s (fuel : nat) (next field : N) (so : StateObject.t)
    (l : list N) (rest : list byte) :
  next <= field -> 2 <= field < 4 -> slice_len l -> uint16s l ->
  RefGob.decodeFields (S fuel) next so
    (RefGob.encodeUint (field + 1 - next) ++ RefGob.encodeUint16s l ++ rest)
  = match RefGob.set_field_uint16s field l so with
    | Some so' => RefGob.decodeFields fuel (field + 1) so' rest
    | None => None
    end.
Proof.
  intros Hn Hf Hl Hu. cbn [RefGob.decodeFields].
  rewrite decodeUint_encodeUint.
  2:{ apply (N.lt_trans _ 5); [lia | now vm_compute]. }
  destruct (N.eqb_spec (field + 1 - next) 0); [lia|].
  cbv zeta. replace (next + (field + 1 - next) - 1) with field by lia.
  destruct (N.ltb_spec field 2); [lia|].
  now rewrite decodeUint16s_encodeUint16s.
Qed.

Lemma decodeFields_end (fuel : nat) (next : N) (so : StateObject.t) :
  RefGob.decodeFields (S fuel) next so [x00] = Some so.
Proof. reflexivity. Qed.

Lemma RefGob_decode_encode (so : StateObject.t) :
  wellTyped so -> RefGob.decode (RefGob.encode so) = Some so.
Proof.
  destruct so as [di co hr ir].
  unfold wellTyped; cbn [StateObject.DiscreteInputs StateObject.Coils
    StateObject.HoldingRegisters StateObject.InputRegisters].
  intros (Hdi & Hco & Hhr & Hir & Uhr & Uir).
  unfold RefGob.decode, RefGob.encode, RefGob.encodeField.
  cbn [StateObject.DiscreteInputs StateObject.Coils
    StateObject.HoldingRegisters StateObject.InputRegisters].
  destruct di as [|b1 di], co as [|b2 co], hr as [|x3 hr], ir as [|x4 ir];
    cbn [RefGob.is_nil];
    repeat first
      [ rewrite <- !app_assoc
      | rewrite (decodeFields_bytes _ _ _ _ _ _) by (assumption || lia)
      | rewrite (decodeFields_uint16s _ _ _ _ _ _) by (assumption || lia)
      | progress cbn [RefGob.set_field_bytes RefGob.set_field_uint16s
          StateObject.DiscreteInputs StateObject.Coils
          StateObject.HoldingRegisters StateObject.InputRegisters] ];
    try apply decodeFields_end.
Qed.

Lemma RefGob_lawful : GobLawful.
Proof.
  intros so Hso. exists (RefGob.encode so). split; [reflexivity|].
  now apply RefGob_decode_encode.
Qed.

(** ** The monad and the events *)

Lemma emit_emit (es1 es2 : list Event) (w : World) :
  emit es2 (emit es1 w) = emit (es1 ++ es2) w.
Proof. destruct w. unfold emit. cbn. now rewrite <- app_assoc. Qed.

Lemma fs_emit (es : list Event) (w : World) : fs (emit es w) = fs w.
Proof. reflexivity. Qed.

Lemma events_emit (es : list Event) (w : World) :
  events (emit es w) = events w ++ es.
Proof. reflexivity. Qed.

(** ** The dispatch table *)

Lemma slot_assign_eq (s : Server) (code : N) (f : option Handler) :
  (N.to_nat code < length (function s))%nat ->
  slot (assign_function code f s) code = f.
Proof.
  intros Hlt. unfold slot, assign_function, set_function. cbn [function].
  now rewrite list_lookup_insert_eq.
Qed.

Lemma slot_assign_ne (s : Server) (code code' : N) (f : option Handler) :
  code' <> code ->
  slot (assign_function code f s) code' = slot s code'.
Proof.
  intros Hne. unfold slot, assign_function, set_function. cbn [function].
  rewrite list_lookup_insert_ne; [reflexivity|]. lia.
Qed.

Lemma function_allocated :
  function allocated = function (fold_right
    (fun '(code, h) s => assign_function code (Some h) s) zeroServer
    [(16, WriteHoldingRegisters); (15, WriteMultipleCoils); (6, WriteHoldingRegister);
     (5, WriteSingleCoil); (4, ReadInputRegisters); (3, ReadHoldingRegisters);
     (2, ReadDiscreteInputs); (1, ReadCoils)]).
Proof. reflexivity. Qed.

Lemma slot_allocated (code : N) :
  code < 256 -> slot allocated code = defaultFunction code.
Proof.
  intros Hc. unfold slot. rewrite function_allocated.
  assert (forallb (fun n => bool_decide
            (mjoin (function (fold_right
               (fun '(code, h) s => assign_function code (Some h) s) zeroServer
               [(16, WriteHoldingRegisters); (15, WriteMultipleCoils);
                (6, WriteHoldingRegister); (5, WriteSingleCoil);
                (4, ReadInputRegisters); (3, ReadHoldingRegisters);
                (2, ReadDiscreteInputs); (1, ReadCoils)]) !! n)
             = defaultFunction (N.of_nat n)))
          (seq 0 256) = true) as A by (vm_compute; reflexivity).
  rewrite forallb_forall in A.
  specialize (A (N.to_nat code)). rewrite N2Nat.id in A.
  apply bool_decide_eq_true in A; [exact A|].
  apply in_seq. lia.
Qed.

(** ** Handling a request *)

Lemma writesOf_app (es1 es2 : list Event) :
  writesOf (es1 ++ es2) = writesOf es1 ++ writesOf es2.
Proof. apply flat_map_app. Qed.

Section DispatchFacts.
Context {F : Type} {framer : Framer F} {handlers : Handlers F}.

Lemma handle_absent (s : Server) (request : Request F) (w : World) :
  slot s (GetFunction (frame request)) = None ->
  handle s request w =
    Return (SetException (AddrOf IllegalFunction) (Copy (frame request)), s)
      (emit [LogFunction (GetFunction (frame request)) (GetData (frame request));
             FrameCopy; FrameSetException (AddrOf IllegalFunction)] w).
Proof.
  intros Hs. unfold handle, bind, log_Printf_function, frame_Copy.
  rewrite Hs. unfold ret.
  destruct (decide (AddrOf IllegalFunction <> AddrOf Success)) as [_|Hc].
  - unfold frame_SetException. now rewrite !emit_emit.
  - exfalso. apply Hc. discriminate.
Qed.

Lemma handle_present (s s' : Server) (request : Request F) (w : World)
    (h : Handler) (data : list byte) (exception : ExceptionPtr) :
  slot s (GetFunction (frame request)) = Some h ->
  call h s (frame request) = (data, exception, s') ->
  handle s request w =
    Return (if decide (exception = AddrOf Success)
            then SetData data (Copy (frame request))
            else SetException exception (SetData data (Copy (frame request))), s')
      (emit (handledEvents (GetFunction (frame request)) (GetData (frame request))
               data exception) w).
Proof.
  intros Hs Hc. unfold handle, bind, log_Printf_function, frame_Copy.
  rewrite Hs, Hc. unfold frame_SetData, ret, handledEvents.
  destruct (decide (exception <> AddrOf Success)) as [Hne|He];
    destruct (decide (exception = AddrOf Success)) as [Heq|Hne'];
    try contradiction.
  - unfold frame_SetException. now rewrite !emit_emit.
  - now rewrite !emit_emit.
Qed.

(** [handle] always returns, and the events it adds hold no [Write]: with a
    [Write] after them, failed or not, no call on the logger follows it. *)
Lemma handle_returns (s : Server) (request : Request F) (w : World) :
  exists response s' es,
    handle s request w = Return (response, s') (emit es w) /\
    (forall c bs err, writeFailureLogged (es ++ [ConnWrite c bs err]) = false).
Proof.
  destruct (slot s (GetFunction (frame request))) as [h|] eqn:Hs.
  - destruct (call h s (frame request)) as [[data exception] s'] eqn:Hc.
    eexists _, _, _. split; [now apply (handle_present _ _ _ _ _ _ _ Hs Hc)|].
    unfold handledEvents.
    destruct (decide (exception = AddrOf Success)); intros c bs [err|]; reflexivity.
  - eexists _, _, _. split; [now apply handle_absent|].
    intros c bs [err|]; reflexivity.
Qed.

(** One turn of the loop: the response of [handle] is written, and whatever
    [Write] answers the turn ends with the server [handle] left. *)
Lemma serve_spec (s : Server) (request : Request F) (w : World) :
  exists response s' es,
    handle s request w = Return (response, s') (emit es w) /\
    serve s request w = Return s'
      (emit (es ++ [ConnWrite (conn request) (Bytes response)
                      (if bool_decide (conn request ∈ broken w)
                       then Some ErrConnWrite else None)]) w) /\
    writeFailureLogged
      (es ++ [ConnWrite (conn request) (Bytes response)
                (if bool_decide (conn request ∈ broken w)
                 then Some ErrConnWrite else None)]) = false.
Proof.
  destruct (handle_returns s request w) as (response & s' & es & Hh & Hl).
  exists response, s', es. split; [exact Hh|]. split; [|apply Hl].
  unfold serve, bind. rewrite Hh. unfold conn_Write.
  change (broken (emit es w)) with (broken w).
  destruct (bool_decide (conn request ∈ broken w)); unfold ret;
    now rewrite emit_emit.
Qed.

(** C1. A request whose function code has no function in the dispatch table
    is answered with the copy of its frame on which [SetException] was
    called with the address of [IllegalFunction] and [SetData] was not
    called at all; the server that [handle] leaves is the server it was
    given, so the four memory arrays are unchanged. *)
Theorem unregistered_function_is_illegal (s : Server) (request : Request F) (w : World) :
  slot s (GetFunction (frame request)) = None ->
  exists response s' w',
    handle s request w = Return (response, s') w' /\
    response = SetException (AddrOf IllegalFunction) (Copy (frame request)) /\
    events w' = events w ++
      [LogFunction (GetFunction (frame request)) (GetData (frame request));
       FrameCopy; FrameSetException (AddrOf IllegalFunction)] /\
    s' = s /\ sameMemory s' s.
Proof.
  intros Hs. eexists _, _, _. split; [now apply handle_absent|].
  repeat split.
Qed.

(** C3. For a request whose function code has a function in the table,
    [handle] copies the request frame, calls the function on the server and
    the request frame, calls [SetData] with the payload the function
    returned, and then calls [SetException] with the returned exception if
    and only if that exception is not the address of [Success]; when it is,
    the events hold no call of [SetException]. *)
Theorem registered_function_response (s s' : Server) (request : Request F) (w : World)
    (h : Handler) (data : list byte) (exception : ExceptionPtr) :
  slot s (GetFunction (frame request)) = Some h ->
  call h s (frame request) = (data, exception, s') ->
  exists response w',
    handle s request w = Return (response, s') w' /\
    response = (if decide (exception = AddrOf Success)
                then SetData data (Copy (frame request))
                else SetException exception (SetData data (Copy (frame request)))) /\
    events w' = events w ++
      [LogFunction (GetFunction (frame request)) (GetData (frame request));
       FrameCopy; FrameSetData data]
      ++ (if decide (exception = AddrOf Success) then []
          else [FrameSetException exception]) /\
    (FrameSetException exception ∈ drop (length (events w)) (events w')
       <-> exception <> AddrOf Success) /\
    (exception = AddrOf Success ->
       forall e, FrameSetException e ∉ drop (length (events w)) (events w')).
Proof.
  intros Hs Hc. eexists _, _. split; [now apply (handle_present _ _ _ _ _ _ _ Hs Hc)|].
  rewrite events_emit, drop_app_length. unfold handledEvents.
  split; [reflexivity|]. split; [reflexivity|].
  destruct (decide (exception = AddrOf Success)) as [He|Hne]; split.
  - split; [|contradiction]. event_mem.
  - intros _ e. unfold not. event_mem.
  - split; [auto|]. intros _. event_mem.
  - contradiction.
Qed.

(** C9. Whether [SetException] is called is decided by the address alone.
    For every pointer the function returns that is not the address of the
    variable [Success], nil or the address of a variable that holds the
    very value [Success] holds included, [SetException] is called with
    that pointer; for the address of [Success] it is not called. *)
Theorem exception_compared_by_address (s s' : Server) (request : Request F) (w : World)
    (h : Handler) (data : list byte) (exception : ExceptionPtr) (m : Memory) :
  slot s (GetFunction (frame request)) = Some h ->
  call h s (frame request) = (data, exception, s') ->
  exists response w',
    handle s request w = Return (response, s') w' /\
    (exception <> AddrOf Success ->
       response = SetException exception (SetData data (Copy (frame request))) /\
       events w' = events w ++
         [LogFunction (GetFunction (frame request)) (GetData (frame request));
          FrameCopy; FrameSetData data; FrameSetException exception]) /\
    (deref m exception = deref m (AddrOf Success) -> exception <> AddrOf Success ->
       FrameSetException exception ∈ drop (length (events w)) (events w')) /\
    (exception = AddrOf Success ->
       response = SetData data (Copy (frame request)) /\
       events w' = events w ++
         [LogFunction (GetFunction (frame request)) (GetData (frame request));
          FrameCopy; FrameSetData data]).
Proof.
  intros Hs Hc. eexists _, _. split; [now apply (handle_present _ _ _ _ _ _ _ Hs Hc)|].
  rewrite events_emit, drop_app_length. unfold handledEvents.
  destruct (decide (exception = AddrOf Success)) as [He|Hne].
  - repeat split; try contradiction.
  - repeat split; try contradiction. intros _ _. event_mem.
Qed.

(** [handle] returns in the world it was given, with events added and no
    write among them. *)
Lemma handle_events (s : Server) (request : Request F) (w : World) :
  exists response s' es,
    handle s request w = Return (response, s') (emit es w) /\ writesOf es = [].
Proof.
  destruct (slot s (GetFunction (frame request))) as [h|] eqn:Hs.
  - destruct (call h s (frame request)) as [[data exception] s'] eqn:Hc.
    eexists _, _, _. split; [now apply (handle_present _ _ _ _ _ _ _ Hs Hc)|].
    unfold handledEvents. now destruct (decide (exception = AddrOf Success)).
  - eexists _, _, _. split; [now apply handle_absent|reflexivity].
Qed.

(** One turn: the events of [handle], then the write on the connection of
    the request. *)
Lemma serve_events (s : Server) (request : Request F) (w : World) :
  exists response s' es,
    handle s request w = Return (response, s') (emit es w) /\
    serve s request w = Return s'
      (emit (es ++ [ConnWrite (conn request) (Bytes response)
                      (writeError w (conn request))]) w) /\
    writesOf es = [].
Proof.
  destruct (handle_events s request w) as (response & s' & es & Hh & Hw).
  exists response, s', es. split; [exact Hh|]. split; [|exact Hw].
  unfold serve, bind. rewrite Hh. unfold conn_Write, writeError.
  change (broken (emit es w)) with (broken w).
  destruct (bool_decide (conn request ∈ broken w)); unfold ret;
    now rewrite emit_emit.
Qed.

(** C8. [RegisterFunctionHandler] stores the function value in the slot of
    the code whatever the slot held before; afterwards the slot of that
    code holds the new function value, every other slot holds what it held,
    and a request with that code is dispatched to the new function. *)
Theorem register_replaces_function (s : Server) (code : N) (f : option Handler) :
  code < 256 -> length (function s) = 256%nat ->
  slot (RegisterFunctionHandler code f s) code = f /\
  (forall code', code' <> code ->
     slot (RegisterFunctionHandler code f s) code' = slot s code') /\
  length (function (RegisterFunctionHandler code f s)) = 256%nat /\
  (forall (h : Handler) (request : Request F) (w : World)
          (data : list byte) (exception : ExceptionPtr) (s' : Server),
     f = Some h -> GetFunction (frame request) = code ->
     call h (RegisterFunctionHandler code f s) (frame request) = (data, exception, s') ->
     exists response w',
       handle (RegisterFunctionHandler code f s) request w = Return (response, s') w' /\
       FrameSetData data ∈ drop (length (events w)) (events w')).
Proof.
  intros Hc Hl. unfold RegisterFunctionHandler.
  assert (slot (assign_function code f s) code = f) as Hslot
    by (apply slot_assign_eq; lia).
  split; [exact Hslot|]. split; [intros; now apply slot_assign_ne|].
  split; [unfold assign_function, set_function; cbn [function];
          now rewrite length_insert|].
  intros h request w data exception s' -> <- Hcall.
  eexists _, _.
  split; [now apply (handle_present _ _ _ _ _ _ _ Hslot Hcall)|].
  rewrite events_emit, drop_app_length. unfold handledEvents. event_mem.
Qed.

(** C6, as the code has it. Serving a request always returns.  The events
    of the turn are the events of [handle], which hold no write, followed
    by exactly one write, of the response of [handle] on the connection of
    the request: whatever that write answers is dropped, nothing follows
    it, no call on the logger in particular, and the loop goes on with the
    next request from the server [handle] left, whether the write failed or
    not. *)
Theorem write_failure_is_dropped (s : Server) (request : Request F)
    (rest : list (Request F)) (w : World) :
  exists response s' es,
    handle s request w = Return (response, s') (emit es w) /\
    writesOf es = [] /\
    serve s request w = Return s'
      (emit (es ++ [ConnWrite (conn request) (Bytes response)
                      (if bool_decide (conn request ∈ broken w)
                       then Some ErrConnWrite else None)]) w) /\
    handler s (request :: rest) w =
      handler s' rest
        (emit (es ++ [ConnWrite (conn request) (Bytes response)
                        (if bool_decide (conn request ∈ broken w)
                         then Some ErrConnWrite else None)]) w) /\
    last (es ++ [ConnWrite (conn request) (Bytes response)
                   (if bool_decide (conn request ∈ broken w)
                    then Some ErrConnWrite else None)])
      = Some (ConnWrite (conn request) (Bytes response)
                (if bool_decide (conn request ∈ broken w)
                 then Some ErrConnWrite else None)) /\
    writeFailureLogged
      (es ++ [ConnWrite (conn request) (Bytes response)
                (if bool_decide (conn request ∈ broken w)
                 then Some ErrConnWrite else None)]) = false.
Proof.
  destruct (serve_events s request w) as (response & s' & es & Hh & Hs & Hw).
  destruct (handle_returns s request w) as (response' & s'' & es' & Hh' & Hl).
  rewrite Hh in Hh'. injection Hh' as <- <- Hes.
  apply app_inv_head in Hes. subst es'.
  exists response, s', es. split; [exact Hh|]. split; [exact Hw|].
  split; [exact Hs|]. split; [|split; [apply last_snoc|apply Hl]].
  cbn [handler]. unfold bind. now rewrite Hs.
Qed.

End DispatchFacts.

(** ** Checkpoints *)

Lemma defaultFunction_other (code : N) :
  code < 256 -> code ∉ [1; 2; 3; 4; 5; 6; 15; 16] -> defaultFunction code = None.
Proof.
  intros Hc Hn.
  assert (forallb (fun n => bool_decide (N.of_nat n ∈ [1; 2; 3; 4; 5; 6; 15; 16])
                            || bool_decide (defaultFunction (N.of_nat n) = None))
            (seq 0 256) = true) as A by (vm_compute; reflexivity).
  rewrite forallb_forall in A.
  specialize (A (N.to_nat code)). rewrite N2Nat.id in A.
  destruct (bool_decide_reflect (code ∈ [1; 2; 3; 4; 5; 6; 15; 16])) as [Hin|_];
    [contradiction|].
  assert (In (N.to_nat code) (seq 0 256)) as I by (apply in_seq; lia).
  apply A in I. cbn [orb] in I. now apply bool_decide_eq_true in I.
Qed.

Section CheckpointFacts.
Context {gob : Gob}.

(** What [restoreState] does, by the state of the checkpoint file. *)
Lemma restoreState_spec (s : Server) (w : World) :
  restoreState s w =
  match fs w !! checkpointFile with
  | None =>
      Return s (emit [LogPrintln "restoring state . . ."; LogPrintln "done"] w)
  | Some file =>
      if readable file then
        match gobDecode (content file) with
        | Some so =>
            Return (overwrite so s)
              (emit [LogPrintln "restoring state . . ."; LogPrintln "done"] w)
        | None =>
            Exit 1 (emit [LogPrintln "restoring state . . ."; LogFatal ErrDecode] w)
        end
      else Exit 1 (emit [LogPrintln "restoring state . . ."; LogFatal ErrOpen] w)
  end.
Proof.
  unfold restoreState, bind, log_Println, os_IsNotExist, os_Open. cbv beta.
  rewrite fs_emit.
  destruct (fs w !! checkpointFile) as [file|] eqn:Hf.
  - rewrite bool_decide_eq_false_2 by discriminate. cbn [negb].
    rewrite fs_emit, Hf.
    destruct (readable file).
    + destruct (gobDecode (content file)) as [so|].
      * unfold ret. now rewrite ?emit_emit.
      * unfold log_Fatal. now rewrite ?emit_emit.
    + unfold log_Fatal. now rewrite ?emit_emit.
  - rewrite bool_decide_eq_true_2 by reflexivity. cbn [negb].
    unfold ret. now rewrite ?emit_emit.
Qed.

(** [NewServer] is [restoreState] on the allocated server, and then the
    channel and the loop. *)
Lemma NewServer_spec (w : World) :
  NewServer w =
  match restoreState allocated w with
  | Return s0 w0 =>
      Return (set_requestChan (Some (nextChan w0)) s0)
        (mkWorld (fs w0) (disk w0) (broken w0) (S (nextChan w0))
           (events w0 ++ [MakeChan (nextChan w0); GoHandler]))
  | Exit c w0 => Exit c w0
  end.
Proof.
  unfold NewServer, bind. destruct (restoreState allocated w) as [s0 w0|c w0];
    [|reflexivity].
  unfold make_chan, go_handler, ret, emit. cbn [fs disk broken nextChan events].
  now rewrite <- app_assoc.
Qed.

Lemma overwrite_memory (so : StateObject.t) (s : Server) :
  DiscreteInputs (overwrite so s) = StateObject.DiscreteInputs so /\
  Coils (overwrite so s) = StateObject.Coils so /\
  HoldingRegisters (overwrite so s) = StateObject.HoldingRegisters so /\
  InputRegisters (overwrite so s) = StateObject.InputRegisters so /\
  function (overwrite so s) = function s /\
  Debug (overwrite so s) = Debug s /\
  listeners (overwrite so s) = listeners s /\
  ports (overwrite so s) = ports s /\
  requestChan (overwrite so s) = requestChan s.
Proof. repeat split. Qed.

Lemma overwrite_fullSize (so : StateObject.t) (s : Server) :
  fullSize (overwrite so s) <-> fullState so.
Proof. reflexivity. Qed.

Lemma fullSize_allocated : fullSize allocated.
Proof.
  unfold fullSize, allocated, len. cbn [DiscreteInputs Coils HoldingRegisters
    InputRegisters assign_function set_function set_DiscreteInputs set_Coils
    set_HoldingRegisters set_InputRegisters].
  unfold make_bytes, make_uint16s. rewrite !length_replicate.
  unfold memorySize. rewrite N2Nat.id. repeat split.
Qed.

(** C10. When the checkpoint file does not exist, [restoreState] returns the
    server it was given: the four arrays and every other field are what
    they were, and nothing but the two log lines happened. *)
Theorem restoreState_without_checkpoint (s : Server) (w : World) :
  fs w !! checkpointFile = None ->
  exists s' w',
    restoreState s w = Return s' w' /\
    s' = s /\ sameMemory s' s /\
    w' = emit [LogPrintln "restoring state . . ."; LogPrintln "done"] w.
Proof.
  intros Hf. eexists _, _. rewrite restoreState_spec, Hf. repeat split.
Qed.

(** C5. When the checkpoint file exists, can be opened and decodes,
    [restoreState] returns the server with the four arrays replaced by the
    four decoded ones, in the order of the fields, and with nothing else
    changed; when no checkpoint file exists it returns the server as it
    was, so the arrays are replaced only when the file exists.  When the
    file exists and cannot be opened or decoded the process exits with
    status 1 and [NewServer] never returns nor starts the loop.  When
    [NewServer] returns, [restoreState] has returned before the channel is
    made and the loop is started, on the server that [NewServer]
    returns. *)
Theorem restoreState_before_loop_or_fatal (s : Server) (w : World) :
  (forall file so, fs w !! checkpointFile = Some file -> readable file = true ->
     gobDecode (content file) = Some so ->
     restoreState s w =
       Return (overwrite so s)
         (emit [LogPrintln "restoring state . . ."; LogPrintln "done"] w) /\
     DiscreteInputs (overwrite so s) = StateObject.DiscreteInputs so /\
     Coils (overwrite so s) = StateObject.Coils so /\
     HoldingRegisters (overwrite so s) = StateObject.HoldingRegisters so /\
     InputRegisters (overwrite so s) = StateObject.InputRegisters so /\
     function (overwrite so s) = function s /\
     Debug (overwrite so s) = Debug s /\
     listeners (overwrite so s) = listeners s /\
     ports (overwrite so s) = ports s /\
     requestChan (overwrite so s) = requestChan s /\
     NewServer w =
       Return (set_requestChan (Some (nextChan w)) (overwrite so allocated))
         (mkWorld (fs w) (disk w) (broken w) (S (nextChan w))
            (events w ++ [LogPrintln "restoring state . . ."; LogPrintln "done";
                          MakeChan (nextChan w); GoHandler]))) /\
  (fs w !! checkpointFile = None ->
     restoreState s w =
       Return s (emit [LogPrintln "restoring state . . ."; LogPrintln "done"] w)) /\
  (forall file, fs w !! checkpointFile = Some file -> readable file = false ->
     restoreState s w =
       Exit 1 (emit [LogPrintln "restoring state . . ."; LogFatal ErrOpen] w) /\
     NewServer w =
       Exit 1 (emit [LogPrintln "restoring state . . ."; LogFatal ErrOpen] w)) /\
  (forall s' w', restoreState s w = Return s' w' ->
     (fs w !! checkpointFile = None /\ s' = s) \/
     (exists file so, fs w !! checkpointFile = Some file /\
        gobDecode (content file) = Some so /\ s' = overwrite so s /\
        DiscreteInputs s' = StateObject.DiscreteInputs so /\
        Coils s' = StateObject.Coils so /\
        HoldingRegisters s' = StateObject.HoldingRegisters so /\
        InputRegisters s' = StateObject.InputRegisters so)) /\
  (forall file, fs w !! checkpointFile = Some file -> readable file = true ->
     gobDecode (content file) = None ->
     restoreState s w =
       Exit 1 (emit [LogPrintln "restoring state . . ."; LogFatal ErrDecode] w) /\
     NewServer w =
       Exit 1 (emit [LogPrintln "restoring state . . ."; LogFatal ErrDecode] w)) /\
  (forall s' w', NewServer w = Return s' w' ->
     exists s0 w0,
       restoreState allocated w = Return s0 w0 /\
       s' = set_requestChan (Some (nextChan w0)) s0 /\
       sameMemory s' s0 /\
       events w0 = events w ++ [LogPrintln "restoring state . . ."; LogPrintln "done"] /\
       events w' = events w0 ++ [MakeChan (nextChan w0); GoHandler]).
Proof.
  split; [|split; [|split; [|split; [|split]]]].
  - intros file so Hf Hr Hd.
    rewrite NewServer_spec, !restoreState_spec, Hf, Hr, Hd.
    split; [reflexivity|]. repeat (split; [reflexivity|]).
    cbn [fs disk broken nextChan events emit]. now rewrite <- app_assoc.
  - intros Hf. now rewrite restoreState_spec, Hf.
  - intros file Hf Hr. rewrite NewServer_spec, !restoreState_spec, Hf, Hr.
    split; reflexivity.
  - intros s' w'. rewrite restoreState_spec.
    destruct (fs w !! checkpointFile) as [file|] eqn:Hf.
    + destruct (readable file); [|discriminate].
      destruct (gobDecode (content file)) as [so|] eqn:Hd; [|discriminate].
      intros [= <- _]. right. exists file, so. repeat split; assumption.
    + intros [= <- _]. now left.
  - intros file Hf Hr Hd. rewrite NewServer_spec, !restoreState_spec, Hf, Hr, Hd.
    split; reflexivity.
  - intros s' w'. rewrite NewServer_spec.
    destruct (restoreState allocated w) as [s0 w0|c w0] eqn:Hr; [|discriminate].
    intros [= <- <-]. exists s0, w0. split; [reflexivity|].
    repeat split.
    rewrite restoreState_spec in Hr.
    destruct (fs w !! checkpointFile) as [file|].
    + destruct (readable file); [|discriminate].
      destruct (gobDecode (content file)); [|discriminate].
      now injection Hr as _ <-.
    + now injection Hr as _ <-.
Qed.

(** C7. Every server [NewServer] returns maps the codes 1, 2, 3, 4, 5, 6, 15
    and 16 to the eight standard functions, in that order, and holds no
    function for any other code below 256; and [NewServer] does return
    when there is no checkpoint file. *)
Theorem NewServer_default_table (w : World) :
  (forall s w', NewServer w = Return s w' ->
     slot s 1 = Some ReadCoils /\
     slot s 2 = Some ReadDiscreteInputs /\
     slot s 3 = Some ReadHoldingRegisters /\
     slot s 4 = Some ReadInputRegisters /\
     slot s 5 = Some WriteSingleCoil /\
     slot s 6 = Some WriteHoldingRegister /\
     slot s 15 = Some WriteMultipleCoils /\
     slot s 16 = Some WriteHoldingRegisters /\
     (forall code, code < 256 -> code ∉ [1; 2; 3; 4; 5; 6; 15; 16] ->
        slot s code = None) /\
     (forall code, code < 256 -> slot s code = defaultFunction code)) /\
  (fs w !! checkpointFile = None -> exists s w', NewServer w = Return s w').
Proof.
  split.
  - intros s w'. rewrite NewServer_spec, restoreState_spec.
    intros Hn.
    assert (forall code, code < 256 -> slot s code = defaultFunction code) as A.
    { intros code Hc. rewrite <- (slot_allocated code Hc).
      destruct (fs w !! checkpointFile) as [file|].
      - destruct (readable file); [|discriminate].
        destruct (gobDecode (content file)); [|discriminate].
        now injection Hn as <- _.
      - now injection Hn as <- _. }
    repeat split;
      [ exact (A 1 eq_refl) | exact (A 2 eq_refl) | exact (A 3 eq_refl)
      | exact (A 4 eq_refl) | exact (A 5 eq_refl) | exact (A 6 eq_refl)
      | exact (A 15 eq_refl) | exact (A 16 eq_refl) | | exact A ].
    intros code Hc Hnot. rewrite A by exact Hc. now apply defaultFunction_other.
  - intros Hf. rewrite NewServer_spec, restoreState_spec, Hf. eauto.
Qed.

End CheckpointFacts.

(** ** Saving, then a new server *)

Section RoundTrip.
Context {F : Type} {framer : Framer F} {handlers : Handlers F}.
Context {gob : Gob} {lawful : GobLawful}.

Lemma saveState_spec (s : Server) (w : World) :
  saveState s w =
  match gobEncode (snapshot s) with
  | None => Exit 1 (emit [LogPrintln "saving state . . ."; LogFatal ErrEncode] w)
  | Some buf =>
      match disk w with
      | DiskAccepts =>
          Return tt
            (emit [LogPrintln "saving state . . ."; LogPrintln "done"]
               (set_fs (<[checkpointFile :=
                            mkFile buf (match fs w !! checkpointFile with
                                        | Some f => readable f
                                        | None => true
                                        end)]> (fs w)) w))
      | DiskRefuses =>
          Exit 1 (emit [LogPrintln "saving state . . ."; LogFatal ErrWriteFile] w)
      | DiskFailsAfter n =>
          Exit 1
            (emit [LogPrintln "saving state . . ."; LogFatal ErrWriteFile]
               (set_fs (<[checkpointFile :=
                            mkFile (take n buf) (match fs w !! checkpointFile with
                                                 | Some f => readable f
                                                 | None => true
                                                 end)]> (fs w)) w))
      end
  end.
Proof.
  unfold saveState, bind, log_Println. cbv beta zeta.
  destruct (gobEncode (snapshot s)) as [buf|].
  - unfold ioutil_WriteFile. cbv zeta.
    change (disk (emit [LogPrintln "saving state . . ."] w)) with (disk w).
    rewrite fs_emit. destruct w as [fs0 d br nc ev]. cbn [disk fs].
    destruct d; unfold log_Fatal, emit, set_fs;
      cbn [fs disk broken nextChan events]; now rewrite <- app_assoc.
  - unfold log_Fatal. now rewrite emit_emit.
Qed.

Lemma writable_accepts (w : World) : writable w = true -> disk w = DiskAccepts.
Proof. unfold writable. now destruct (disk w). Qed.

(** A server saved where the checkpoint can be written and read, and the
    server [NewServer] then returns. *)
Lemma save_then_NewServer (s : Server) (w : World) :
  wellTyped (snapshot s) -> writable w = true ->
  (forall file, fs w !! checkpointFile = Some file -> readable file = true) ->
  exists w1 w2 c,
    saveState s w = Return tt w1 /\
    NewServer w1 = Return (set_requestChan (Some c) (overwrite (snapshot s) allocated)) w2.
Proof.
  intros Hwt Hw Hr.
  destruct (gob_round_trip (snapshot s) Hwt) as (bs & He & Hd).
  rewrite saveState_spec, He, (writable_accepts w Hw).
  eexists _, _, _. split; [reflexivity|].
  rewrite NewServer_spec, restoreState_spec, fs_emit.
  unfold set_fs at 1. cbn [fs]. rewrite lookup_insert_eq. cbn [readable content].
  assert (match fs w !! checkpointFile with
          | Some f => readable f
          | None => true
          end = true) as ->.
  { destruct (fs w !! checkpointFile) as [file|] eqn:Hf; [now apply Hr|reflexivity]. }
  rewrite Hd. reflexivity.
Qed.

(** C2. For every server whose arrays are well-typed Go values, in a world
    where the checkpoint can be written and read back, [saveState] returns
    and the [NewServer] that follows returns a server whose four arrays are
    equal, element for element, to those of the saved server. *)
Theorem save_new_round_trip (s : Server) (w : World) :
  wellTyped (snapshot s) -> writable w = true ->
  (forall file, fs w !! checkpointFile = Some file -> readable file = true) ->
  exists w1 s' w2,
    saveState s w = Return tt w1 /\
    NewServer w1 = Return s' w2 /\
    DiscreteInputs s' = DiscreteInputs s /\
    Coils s' = Coils s /\
    HoldingRegisters s' = HoldingRegisters s /\
    InputRegisters s' = InputRegisters s.
Proof.
  intros Hwt Hw Hr.
  destruct (save_then_NewServer s w Hwt Hw Hr) as (w1 & w2 & c & Hs & Hn).
  eexists w1, _, w2. split; [exact Hs|]. split; [exact Hn|]. repeat split.
Qed.

(** C4, as the code has it. [NewServer] allocates four arrays of 65536
    elements; registering a function and handling a request with no
    function leave the arrays alone, and handling a request with a function
    leaves the server the function left.  [restoreState] returns the server
    as it was when there is no checkpoint; when the checkpoint decodes it
    returns the server with each of the four arrays replaced by the decoded
    array of the same field, whatever its length, so that each array has
    after it the length of the decoded one, and 65536 elements exactly when
    the decoded one has.  The decoded arrays have 65536 elements when the
    checkpoint was written by [saveState] from a server whose arrays
    have. *)
Theorem memory_size_follows_checkpoint :
  fullSize allocated /\
  (forall w s w', NewServer w = Return s w' ->
     (fs w !! checkpointFile = None -> fullSize s) /\
     (forall file so, fs w !! checkpointFile = Some file ->
        gobDecode (content file) = Some so -> (fullSize s <-> fullState so))) /\
  (forall s w s' w', restoreState s w = Return s' w' ->
     (fs w !! checkpointFile = None -> s' = s) /\
     (forall file so, fs w !! checkpointFile = Some file ->
        gobDecode (content file) = Some so -> (fullSize s' <-> fullState so))) /\
  (forall s w, fullSize s -> wellTyped (snapshot s) -> writable w = true ->
     (forall file, fs w !! checkpointFile = Some file -> readable file = true) ->
     exists w1 s' w2,
       saveState s w = Return tt w1 /\ NewServer w1 = Return s' w2 /\ fullSize s') /\
  (forall s code f, sameMemory (RegisterFunctionHandler code f s) s) /\
  (forall s (request : Request F) w,
     exists response s' w',
       handle s request w = Return (response, s') w' /\
       s' = match slot s (GetFunction (frame request)) with
            | Some h => snd (call h s (frame request))
            | None => s
            end) /\
  (forall s w file so, fs w !! checkpointFile = Some file -> readable file = true ->
     gobDecode (content file) = Some so ->
     exists s' w',
       restoreState s w = Return s' w' /\
       DiscreteInputs s' = StateObject.DiscreteInputs so /\
       Coils s' = StateObject.Coils so /\
       HoldingRegisters s' = StateObject.HoldingRegisters so /\
       InputRegisters s' = StateObject.InputRegisters so /\
       len (DiscreteInputs s') = len (StateObject.DiscreteInputs so) /\
       len (Coils s') = len (StateObject.Coils so) /\
       len (HoldingRegisters s') = len (StateObject.HoldingRegisters so) /\
       len (InputRegisters s') = len (StateObject.InputRegisters so)) /\
  (forall s w, fs w !! checkpointFile = None ->
     exists w', restoreState s w = Return s w') /\
  (forall w file so, fs w !! checkpointFile = Some file -> readable file = true ->
     gobDecode (content file) = Some so ->
     exists s' w',
       NewServer w = Return s' w' /\
       DiscreteInputs s' = StateObject.DiscreteInputs so /\
       Coils s' = StateObject.Coils so /\
       HoldingRegisters s' = StateObject.HoldingRegisters so /\
       InputRegisters s' = StateObject.InputRegisters so /\
       len (DiscreteInputs s') = len (StateObject.DiscreteInputs so) /\
       len (Coils s') = len (StateObject.Coils so) /\
       len (HoldingRegisters s') = len (StateObject.HoldingRegisters so) /\
       len (InputRegisters s') = len (StateObject.InputRegisters so)) /\
  (forall w, fs w !! checkpointFile = None ->
     exists s' w', NewServer w = Return s' w' /\ sameMemory s' allocated /\ fullSize s').
Proof.
  split; [exact fullSize_allocated|].
  split; [|split; [|split; [|split; [|split; [|split; [|split; [|split]]]]]]].
  - intros w s w'. rewrite NewServer_spec, restoreState_spec.
    destruct (fs w !! checkpointFile) as [file|].
    + destruct (readable file); [|discriminate].
      destruct (gobDecode (content file)) as [so|] eqn:Hd; [|discriminate].
      intros [= <- _]. split; [discriminate|].
      intros ? so' [= <-] Hd'. rewrite Hd in Hd'. now injection Hd' as <-.
    + intros [= <- _]. split; [intros _; exact fullSize_allocated|discriminate].
  - intros s w s' w'. rewrite restoreState_spec.
    destruct (fs w !! checkpointFile) as [file|].
    + destruct (readable file); [|discriminate].
      destruct (gobDecode (content file)) as [so|] eqn:Hd; [|discriminate].
      intros [= <- _]. split; [discriminate|].
      intros ? so' [= <-] Hd'. rewrite Hd in Hd'. now injection Hd' as <-.
    + intros [= <- _]. split; [reflexivity|discriminate].
  - intros s w Hfull Hwt Hw Hr.
    destruct (save_then_NewServer s w Hwt Hw Hr) as (w1 & w2 & c & Hs & Hn).
    eexists w1, _, w2. split; [exact Hs|]. split; [exact Hn|]. exact Hfull.
  - intros s code f. repeat split.
  - intros s request w.
    destruct (slot s (GetFunction (frame request))) as [h|] eqn:Hs.
    + destruct (call h s (frame request)) as [[data exception] s'] eqn:Hc.
      eexists _, _, _.
      split; [now apply (handle_present _ _ _ _ _ _ _ Hs Hc)|reflexivity].
    + eexists _, _, _. split; [now apply handle_absent|reflexivity].
  - intros s w file so Hf Hr Hd. eexists _, _.
    rewrite restoreState_spec, Hf, Hr, Hd. split; [reflexivity|]. now repeat split.
  - intros s w Hf. eexists. now rewrite restoreState_spec, Hf.
  - intros w file so Hf Hr Hd. eexists _, _.
    rewrite NewServer_spec, restoreState_spec, Hf, Hr, Hd.
    split; [reflexivity|]. now repeat split.
  - intros w Hf. eexists _, _.
    rewrite NewServer_spec, restoreState_spec, Hf. split; [reflexivity|].
    split; [now repeat split|exact fullSize_allocated].
Qed.

End RoundTrip.

(** ** The engine on concrete collaborators *)

Lemma fullSize_wellTyped (s : Server) :
  fullSize s -> uint16s (HoldingRegisters s) -> uint16s (InputRegisters s) ->
  wellTyped (snapshot s).
Proof.
  intros (H1 & H2 & H3 & H4) U3 U4. unfold wellTyped, slice_len, snapshot.
  cbn [StateObject.DiscreteInputs StateObject.Coils StateObject.HoldingRegisters
       StateObject.InputRegisters].
  rewrite H1, H2, H3, H4. repeat split; try assumption; now vm_compute.
Qed.

Lemma storedServer_fullSize : fullSize Scenario.storedServer.
Proof.
  destruct fullSize_allocated as (H1 & H2 & H3 & H4).
  unfold fullSize, Scenario.storedServer, len in *.
  cbn [DiscreteInputs Coils HoldingRegisters InputRegisters
       set_HoldingRegisters set_Coils].
  rewrite !length_insert. repeat split; assumption.
Qed.

Lemma storedServer_wellTyped : wellTyped (snapshot Scenario.storedServer).
Proof.
  apply fullSize_wellTyped; [exact storedServer_fullSize| |].
  - apply Forall_insert; [apply Forall_replicate|]; now vm_compute.
  - apply Forall_replicate. now vm_compute.
Qed.

Lemma shortState_decodes :
  RefGob.decode (RefGob.encode Scenario.shortState) = Some Scenario.shortState.
Proof. vm_compute. reflexivity. Qed.

Lemma savedWorld_file :
  fs Cases.savedWorld !! checkpointFile
  = Some (mkFile (RefGob.encode (snapshot Scenario.storedServer)) true).
Proof. apply lookup_singleton_eq. Qed.

Lemma storedServer_decodes :
  gobDecode (RefGob.encode (snapshot Scenario.storedServer))
  = Some (snapshot Scenario.storedServer).
Proof. exact (RefGob_decode_encode _ storedServer_wellTyped). Qed.

Lemma storedServer_register_100 :
  HoldingRegisters Scenario.storedServer !! 100%nat = Some 1234.
Proof.
  apply list_lookup_insert_eq.
  unfold allocated, make_uint16s, memorySize.
  cbn [HoldingRegisters assign_function set_function set_InputRegisters
       set_HoldingRegisters].
  rewrite length_replicate. lia.
Qed.

(** C4, as stated, fails. A checkpoint file that holds the encoding of a
    state with one element in each array is decoded without error, and the
    server [NewServer] returns has arrays of length 1. *)
Lemma short_checkpoint_breaks_size :
  exists s w',
    NewServer (Scenario.worldWith (RefGob.encode Scenario.shortState)) = Return s w' /\
    len (DiscreteInputs s) = 1 /\ len (Coils s) = 1 /\
    len (HoldingRegisters s) = 1 /\ len (InputRegisters s) = 1 /\
    ~ fullSize s.
Proof.
  eexists _, _. split.
  - rewrite NewServer_spec, restoreState_spec.
    unfold Scenario.worldWith at 1. cbn [fs]. rewrite lookup_singleton_eq.
    cbn [readable content gobDecode RefGob.codec].
    rewrite shortState_decodes. reflexivity.
  - repeat split. intros (Hc & _). discriminate Hc.
Qed.

(** C6, as stated, fails. Connection 9 is broken: the write of the response
    fails, and the events of the turn end with the failed write; the only
    call on the logger is the one [handle] makes before the write. *)
Lemma failed_write_is_not_logged :
  exists s' w',
    serve allocated (Scenario.request 99 9%nat) Scenario.freshWorld = Return s' w' /\
    events w' =
      [LogFunction 99 [x00; x64]; FrameCopy; FrameSetException (AddrOf IllegalFunction);
       ConnWrite 9%nat [x63; x00; x64] (Some ErrConnWrite)] /\
    writeFailureLogged (events w') = false /\
    List.filter isLog (events w') = [LogFunction 99 [x00; x64]].
Proof.
  eexists _, _. split.
  - unfold serve, bind. rewrite handle_absent.
    + unfold conn_Write, ret. cbn [conn Scenario.request broken emit Scenario.freshWorld].
      rewrite bool_decide_eq_true_2 by (apply list_elem_of_here). reflexivity.
    + now apply slot_allocated.
  - repeat split.
Qed.

(** ** The properties at concrete inputs *)

(** Code 99 has no function in a new server. *)
Lemma unregistered_function_is_illegal_witness :
  slot allocated (GetFunction (frame (Scenario.request 99 1%nat))) = None /\
  exists response s' w',
    handle allocated (Scenario.request 99 1%nat) Scenario.freshWorld
      = Return (response, s') w' /\
    response = SetException (AddrOf IllegalFunction)
                 (Copy (frame (Scenario.request 99 1%nat))) /\
    events w' = events Scenario.freshWorld ++
      [LogFunction (GetFunction (frame (Scenario.request 99 1%nat)))
         (GetData (frame (Scenario.request 99 1%nat)));
       FrameCopy; FrameSetException (AddrOf IllegalFunction)] /\
    s' = allocated /\ sameMemory s' allocated.
Proof.
  assert (slot allocated (GetFunction (frame (Scenario.request 99 1%nat))) = None)
    as Hs by (vm_compute; reflexivity).
  split; [exact Hs|].
  exact (unregistered_function_is_illegal allocated (Scenario.request 99 1%nat)
           Scenario.freshWorld Hs).
Defined.

(** The function registered for code 65 answers two bytes and [Success]. *)
Lemma registered_function_response_witness :
  slot (RegisterFunctionHandler 65 (Some (Custom 0)) allocated)
    (GetFunction (frame (Scenario.request 65 1%nat))) = Some (Custom 0) /\
  call (Custom 0) (RegisterFunctionHandler 65 (Some (Custom 0)) allocated)
    (frame (Scenario.request 65 1%nat))
    = ([xaa; xbb], AddrOf Success, RegisterFunctionHandler 65 (Some (Custom 0)) allocated) /\
  exists response w',
    handle (RegisterFunctionHandler 65 (Some (Custom 0)) allocated)
      (Scenario.request 65 1%nat) Scenario.freshWorld
      = Return (response, RegisterFunctionHandler 65 (Some (Custom 0)) allocated) w' /\
    response = SetData [xaa; xbb] (Copy (frame (Scenario.request 65 1%nat))) /\
    events w' = [LogFunction 65 [x00; x64]; FrameCopy; FrameSetData [xaa; xbb]].
Proof.
  assert (slot (RegisterFunctionHandler 65 (Some (Custom 0)) allocated)
            (GetFunction (frame (Scenario.request 65 1%nat))) = Some (Custom 0))
    as Hs by (vm_compute; reflexivity).
  assert (call (Custom 0) (RegisterFunctionHandler 65 (Some (Custom 0)) allocated)
            (frame (Scenario.request 65 1%nat))
          = ([xaa; xbb], AddrOf Success,
             RegisterFunctionHandler 65 (Some (Custom 0)) allocated))
    as Hc by reflexivity.
  split; [exact Hs|]. split; [exact Hc|].
  destruct (registered_function_response _ _ _ Scenario.freshWorld _ _ _ Hs Hc)
    as (response & w' & Hh & Hr & He & _).
  exists response, w'. split; [exact Hh|]. split; [exact Hr|exact He].
Defined.

(** The function registered for code 65 answers the address of a variable
    of its own, which holds the value [Success] holds. *)
Lemma exception_compared_by_address_witness :
  slot (RegisterFunctionHandler 65 (Some (Custom 1)) allocated)
    (GetFunction (frame (Scenario.request 65 1%nat))) = Some (Custom 1) /\
  call (Custom 1) (RegisterFunctionHandler 65 (Some (Custom 1)) allocated)
    (frame (Scenario.request 65 1%nat))
    = ([x01], AddrOf (OtherVar 7),
       RegisterFunctionHandler 65 (Some (Custom 1)) allocated) /\
  deref Scenario.testMemory (AddrOf (OtherVar 7))
    = deref Scenario.testMemory (AddrOf Success) /\
  AddrOf (OtherVar 7) <> AddrOf Success /\
  exists response w',
    handle (RegisterFunctionHandler 65 (Some (Custom 1)) allocated)
      (Scenario.request 65 1%nat) Scenario.freshWorld
      = Return (response, RegisterFunctionHandler 65 (Some (Custom 1)) allocated) w' /\
    response = SetException (AddrOf (OtherVar 7))
                 (SetData [x01] (Copy (frame (Scenario.request 65 1%nat)))) /\
    FrameSetException (AddrOf (OtherVar 7))
      ∈ drop (length (events Scenario.freshWorld)) (events w').
Proof.
  assert (slot (RegisterFunctionHandler 65 (Some (Custom 1)) allocated)
            (GetFunction (frame (Scenario.request 65 1%nat))) = Some (Custom 1))
    as Hs by (vm_compute; reflexivity).
  assert (call (Custom 1) (RegisterFunctionHandler 65 (Some (Custom 1)) allocated)
            (frame (Scenario.request 65 1%nat))
          = ([x01], AddrOf (OtherVar 7),
             RegisterFunctionHandler 65 (Some (Custom 1)) allocated))
    as Hc by reflexivity.
  assert (deref Scenario.testMemory (AddrOf (OtherVar 7))
          = deref Scenario.testMemory (AddrOf Success)) as Hv by reflexivity.
  assert (AddrOf (OtherVar 7) <> AddrOf Success) as Hne by discriminate.
  split; [exact Hs|]. split; [exact Hc|]. split; [exact Hv|]. split; [exact Hne|].
  destruct (exception_compared_by_address _ _ _ Scenario.freshWorld _ _ _
              Scenario.testMemory Hs Hc) as (response & w' & Hh & Hother & Hval & _).
  exists response, w'. split; [exact Hh|].
  split; [exact (proj1 (Hother Hne))|exact (Hval Hv Hne)].
Defined.

(** A function registered for code 65 of a new server. *)
Lemma register_replaces_function_witness :
  65 < 256 /\ length (function allocated) = 256%nat /\
  slot allocated 65 = None /\
  slot (RegisterFunctionHandler 65 (Some (Custom 0)) allocated) 65 = Some (Custom 0) /\
  slot (RegisterFunctionHandler 65 (Some (Custom 0)) allocated) 3
    = Some ReadHoldingRegisters /\
  slot (RegisterFunctionHandler 3 (Some (Custom 0)) allocated) 3 = Some (Custom 0).
Proof.
  assert (65 < 256) as H65 by reflexivity.
  assert (3 < 256) as H3 by reflexivity.
  assert (length (function allocated) = 256%nat) as Hl by (vm_compute; reflexivity).
  split; [exact H65|]. split; [exact Hl|].
  split; [vm_compute; reflexivity|].
  destruct (register_replaces_function (F := Scenario.TestFrame)
              allocated 65 (Some (Custom 0)) H65 Hl) as (Ha & Hb & _).
  destruct (register_replaces_function (F := Scenario.TestFrame)
              allocated 3 (Some (Custom 0)) H3 Hl) as (Hc & _).
  split; [exact Ha|]. split; [|exact Hc].
  rewrite Hb by discriminate. vm_compute. reflexivity.
Defined.

(** No checkpoint file in the fresh world. *)
Lemma restoreState_without_checkpoint_witness :
  fs Scenario.freshWorld !! checkpointFile = None /\
  exists s' w',
    restoreState Scenario.storedServer Scenario.freshWorld = Return s' w' /\
    s' = Scenario.storedServer /\ sameMemory s' Scenario.storedServer /\
    w' = emit [LogPrintln "restoring state . . ."; LogPrintln "done"] Scenario.freshWorld.
Proof.
  assert (fs Scenario.freshWorld !! checkpointFile = None) as Hf
    by (vm_compute; reflexivity).
  split; [exact Hf|].
  exact (restoreState_without_checkpoint Scenario.storedServer Scenario.freshWorld Hf).
Defined.

(** A checkpoint file of one byte that is no encoding, no checkpoint file
    at all, and the checkpoint of a server with two values stored. *)
Lemma restoreState_before_loop_or_fatal_witness :
  fs (Scenario.worldWith [xff]) !! checkpointFile = Some (mkFile [xff] true) /\
  gobDecode [xff] = None /\
  NewServer (Scenario.worldWith [xff])
    = Exit 1 (emit [LogPrintln "restoring state . . ."; LogFatal ErrDecode]
                (Scenario.worldWith [xff])) /\
  NewServer Scenario.freshWorld
    = Return (set_requestChan (Some 0%nat) allocated)
        (mkWorld ∅ DiskAccepts [9%nat] 1%nat
           [LogPrintln "restoring state . . ."; LogPrintln "done";
            MakeChan 0%nat; GoHandler]) /\
  (exists s0 w0,
     restoreState allocated Scenario.freshWorld = Return s0 w0 /\
     events w0 = [LogPrintln "restoring state . . ."; LogPrintln "done"] /\
     sameMemory (set_requestChan (Some 0%nat) allocated) s0) /\
  fs Cases.savedWorld !! checkpointFile
    = Some (mkFile (RefGob.encode (snapshot Scenario.storedServer)) true) /\
  gobDecode (RefGob.encode (snapshot Scenario.storedServer))
    = Some (snapshot Scenario.storedServer) /\
  restoreState allocated Cases.savedWorld
    = Return (overwrite (snapshot Scenario.storedServer) allocated)
        (emit [LogPrintln "restoring state . . ."; LogPrintln "done"] Cases.savedWorld) /\
  HoldingRegisters (overwrite (snapshot Scenario.storedServer) allocated)
    = HoldingRegisters Scenario.storedServer /\
  Coils (overwrite (snapshot Scenario.storedServer) allocated)
    = Coils Scenario.storedServer /\
  HoldingRegisters (overwrite (snapshot Scenario.storedServer) allocated) !! 100%nat
    = Some 1234 /\
  NewServer Cases.savedWorld
    = Return (set_requestChan (Some (nextChan Cases.savedWorld))
                (overwrite (snapshot Scenario.storedServer) allocated))
        (mkWorld (fs Cases.savedWorld) (disk Cases.savedWorld) (broken Cases.savedWorld)
           (S (nextChan Cases.savedWorld))
           (events Cases.savedWorld
            ++ [LogPrintln "restoring state . . ."; LogPrintln "done";
                MakeChan (nextChan Cases.savedWorld); GoHandler])).
Proof.
  assert (fs (Scenario.worldWith [xff]) !! checkpointFile = Some (mkFile [xff] true))
    as Hf by (vm_compute; reflexivity).
  assert (gobDecode [xff] = None) as Hd by (vm_compute; reflexivity).
  assert (NewServer Scenario.freshWorld
          = Return (set_requestChan (Some 0%nat) allocated)
              (mkWorld ∅ DiskAccepts [9%nat] 1%nat
                 [LogPrintln "restoring state . . ."; LogPrintln "done";
                  MakeChan 0%nat; GoHandler])) as Hn by reflexivity.
  split; [exact Hf|]. split; [exact Hd|].
  destruct (restoreState_before_loop_or_fatal allocated (Scenario.worldWith [xff]))
    as (_ & _ & _ & _ & Hfatal & _).
  split; [exact (proj2 (Hfatal _ Hf eq_refl Hd))|].
  split; [exact Hn|].
  destruct (restoreState_before_loop_or_fatal allocated Scenario.freshWorld)
    as (_ & _ & _ & _ & _ & Hloop).
  split.
  { destruct (Hloop _ _ Hn) as (s0 & w0 & Hr & _ & Hm & H0 & _).
    exists s0, w0. split; [exact Hr|]. split; [exact H0|exact Hm]. }
  split; [exact savedWorld_file|]. split; [exact storedServer_decodes|].
  destruct (restoreState_before_loop_or_fatal allocated Cases.savedWorld)
    as (Hover & _).
  destruct (Hover _ _ savedWorld_file eq_refl storedServer_decodes)
    as (Hr & _ & Hco & Hhr & _ & _ & _ & _ & _ & _ & Hnew).
  split; [exact Hr|]. split; [exact Hhr|]. split; [exact Hco|].
  split; [|exact Hnew].
  rewrite Hhr. exact storedServer_register_100.
Defined.

(** A new server in the fresh world. *)
Lemma NewServer_default_table_witness :
  fs Scenario.freshWorld !! checkpointFile = None /\
  exists s w',
    NewServer Scenario.freshWorld = Return s w' /\
    slot s 3 = Some ReadHoldingRegisters /\
    slot s 16 = Some WriteHoldingRegisters /\
    slot s 0 = None /\ slot s 7 = None /\ slot s 99 = None /\ slot s 255 = None.
Proof.
  assert (fs Scenario.freshWorld !! checkpointFile = None) as Hf
    by (vm_compute; reflexivity).
  split; [exact Hf|].
  destruct (NewServer_default_table Scenario.freshWorld) as (Htab & Hret).
  destruct (Hret Hf) as (s & w' & Hn).
  destruct (Htab s w' Hn) as (_ & _ & H3 & _ & _ & _ & _ & H16 & _ & Hall).
  exists s, w'. split; [exact Hn|]. split; [exact H3|]. split; [exact H16|].
  split; [exact (Hall 0 eq_refl)|]. split; [exact (Hall 7 eq_refl)|].
  split; [exact (Hall 99 eq_refl)|exact (Hall 255 eq_refl)].
Defined.

(** A server with two values stored is saved in the fresh world, and a new
    server is made. *)
Lemma save_new_round_trip_witness :
  wellTyped (snapshot Scenario.storedServer) /\
  writable Scenario.freshWorld = true /\
  (forall file, fs Scenario.freshWorld !! checkpointFile = Some file ->
     readable file = true) /\
  exists w1 s' w2,
    saveState Scenario.storedServer Scenario.freshWorld = Return tt w1 /\
    NewServer w1 = Return s' w2 /\
    HoldingRegisters s' !! 100%nat = Some 1234 /\
    Coils s' !! 5%nat = Some x01 /\
    sameMemory s' Scenario.storedServer.
Proof.
  assert (writable Scenario.freshWorld = true) as Hw by reflexivity.
  assert (forall file, fs Scenario.freshWorld !! checkpointFile = Some file ->
            readable file = true) as Hr by (intros file Hf; discriminate Hf).
  split; [exact storedServer_wellTyped|]. split; [exact Hw|]. split; [exact Hr|].
  destruct (save_new_round_trip (lawful := RefGob_lawful) Scenario.storedServer
              Scenario.freshWorld storedServer_wellTyped Hw Hr)
    as (w1 & s' & w2 & Hs & Hn & H1 & H2 & H3 & H4).
  exists w1, s', w2. split; [exact Hs|]. split; [exact Hn|].
  split; [|split; [|now repeat split]].
  - rewrite H3. apply list_lookup_insert_eq.
    unfold allocated, make_uint16s, memorySize.
    cbn [HoldingRegisters assign_function set_function set_InputRegisters
         set_HoldingRegisters].
    rewrite length_replicate. lia.
  - rewrite H2. apply list_lookup_insert_eq.
    unfold allocated, make_bytes, memorySize.
    cbn [Coils assign_function set_function set_InputRegisters
         set_HoldingRegisters set_Coils].
    rewrite length_replicate. lia.
Defined.

(** The sizes of a new server, of the server made from the checkpoint of a
    server of full size, and of the server a function left. *)
Lemma memory_size_follows_checkpoint_witness :
  fullSize allocated /\
  (exists w1 s' w2,
     saveState Scenario.storedServer Scenario.freshWorld = Return tt w1 /\
     NewServer w1 = Return s' w2 /\ fullSize s') /\
  (exists response s' w',
     handle (RegisterFunctionHandler 65 (Some (Custom 3)) allocated)
       (Scenario.request 65 1%nat) Scenario.freshWorld = Return (response, s') w' /\
     Coils s' = []) /\
  (exists s' w',
     NewServer Cases.savedWorld = Return s' w' /\
     HoldingRegisters s' = HoldingRegisters Scenario.storedServer /\
     Coils s' = Coils Scenario.storedServer /\
     len (HoldingRegisters s') = 65536 /\ len (Coils s') = 65536) /\
  (exists s' w',
     restoreState Scenario.storedServer
       (Scenario.worldWith (RefGob.encode Scenario.shortState)) = Return s' w' /\
     DiscreteInputs s' = [x01] /\ Coils s' = [x02] /\
     HoldingRegisters s' = [3] /\ InputRegisters s' = [4] /\
     len (HoldingRegisters s') = 1).
Proof.
  destruct (@memory_size_follows_checkpoint Scenario.TestFrame _ _ _ RefGob_lawful)
    as (Halloc & _ & _ & Hsave & _ & Hhandle & Hrestore & _ & Hnew & _).
  split; [exact Halloc|]. split; [|split; [|split]].
  - apply Hsave.
    + exact storedServer_fullSize.
    + exact storedServer_wellTyped.
    + reflexivity.
    + intros file Hf. discriminate Hf.
  - destruct (Hhandle (RegisterFunctionHandler 65 (Some (Custom 3)) allocated)
                (Scenario.request 65 1%nat) Scenario.freshWorld)
      as (response & s' & w' & Hh & Hs').
    exists response, s', w'. split; [exact Hh|]. rewrite Hs'. reflexivity.
  - destruct (Hnew _ _ _ savedWorld_file eq_refl storedServer_decodes)
      as (s' & w' & Hn & _ & Hco & Hhr & _ & _ & Lco & Lhr & _).
    destruct storedServer_fullSize as (_ & Fco & Fhr & _).
    exists s', w'. split; [exact Hn|]. split; [exact Hhr|]. split; [exact Hco|].
    split; [rewrite Lhr; exact Fhr|rewrite Lco; exact Fco].
  - assert (fs (Scenario.worldWith (RefGob.encode Scenario.shortState)) !! checkpointFile
            = Some (mkFile (RefGob.encode Scenario.shortState) true)) as Hf
      by apply lookup_singleton_eq.
    destruct (Hrestore Scenario.storedServer _ _ _ Hf eq_refl shortState_decodes)
      as (s' & w' & Hr & Hdi & Hco & Hhr & Hir & _ & _ & Lhr & _).
    exists s', w'. split; [exact Hr|]. split; [exact Hdi|]. split; [exact Hco|].
    split; [exact Hhr|]. split; [exact Hir|exact Lhr].
Defined.

(** * Further properties of the engine *)

(** ** The loop over a queue of requests *)

Section LoopFacts.
Context {F : Type} {framer : Framer F} {handlers : Handlers F}.

Lemma writeEvents_app (es1 es2 : list Event) :
  writeEvents (es1 ++ es2) = writeEvents es1 ++ writeEvents es2.
Proof. apply List.filter_app. Qed.

(** [handle] returns the response and the server of [answer], and none of
    its events is a write. *)
Lemma handle_answers (s : Server) (request : Request F) (w : World) :
  exists es,
    handle s request w = Return (answer s request) (emit es w) /\
    answers request (fst (answer s request)) /\ writeEvents es = [].
Proof.
  unfold answer.
  destruct (slot s (GetFunction (frame request))) as [h|] eqn:Hs.
  - destruct (call h s (frame request)) as [[data exception] s'] eqn:Hc.
    eexists. split; [now apply (handle_present _ _ _ _ _ _ _ Hs Hc)|].
    unfold handledEvents, answers. cbn [fst].
    destruct (decide (exception = AddrOf Success)); split; eauto.
  - eexists. split; [now apply handle_absent|].
    unfold answers. cbn [fst]. split; eauto.
Qed.

Lemma handler_answers (requests : list (Request F)) : forall (s : Server) (w : World),
  exists es,
    handler s requests w = Return (snd (answerAll s requests)) (emit es w) /\
    Forall2 answers requests (fst (answerAll s requests)) /\
    writeEvents es
    = zip_with (fun request response =>
                  ConnWrite (conn request) (Bytes response) (writeError w (conn request)))
        requests (fst (answerAll s requests)).
Proof.
  induction requests as [|request rest IH]; intros s w.
  - exists []. split; [|split; [constructor|reflexivity]].
    cbn [handler answerAll snd]. unfold ret, emit. destruct w. cbn.
    now rewrite app_nil_r.
  - destruct (handle_answers s request w) as (es1 & Hh & Ha & Hw1).
    cbn [answerAll]. destruct (answer s request) as [response s1].
    cbn [fst] in Ha.
    destruct (IH s1 (emit (es1 ++ [ConnWrite (conn request) (Bytes response)
                                     (writeError w (conn request))]) w))
      as (es2 & Hr & Has & Hw2).
    destruct (answerAll s1 rest) as [responses s'].
    cbn [fst snd] in *.
    exists ((es1 ++ [ConnWrite (conn request) (Bytes response)
                      (writeError w (conn request))]) ++ es2).
    split; [|split; [now constructor|]].
    + cbn [handler]. unfold bind, serve, bind. rewrite Hh.
      unfold conn_Write. change (broken (emit es1 w)) with (broken w).
      rewrite <- emit_emit, <- Hr, <- emit_emit. unfold writeError.
      now destruct (bool_decide (conn request ∈ broken w)).
    + rewrite !writeEvents_app, Hw1, Hw2. reflexivity.
Qed.

(** X1. When the loop has served a queue, the server it leaves is the one
    the last request left, and the writes it made are exactly one per
    request, in the order the requests arrived: each on the connection of
    its request, each carrying the bytes of the response to that request,
    computed on the server the requests before it left and built on the
    copy of the frame of that same request, each with the error the
    connection answered; and the events from before the loop are still
    there. *)
Theorem handler_writes_in_arrival_order (s s' : Server) (requests : list (Request F))
    (w w' : World) :
  handler s requests w = Return s' w' ->
  s' = snd (answerAll s requests) /\
  length (fst (answerAll s requests)) = length requests /\
  Forall2 answers requests (fst (answerAll s requests)) /\
  writeEvents (drop (length (events w)) (events w'))
  = zip_with (fun request response =>
                ConnWrite (conn request) (Bytes response) (writeError w (conn request)))
      requests (fst (answerAll s requests)) /\
  take (length (events w)) (events w') = events w.
Proof.
  intros Hh.
  destruct (handler_answers requests s w) as (es & Hr & Ha & Hw).
  rewrite Hh in Hr. injection Hr as -> ->.
  split; [reflexivity|]. split; [symmetry; exact (Forall2_length _ _ _ Ha)|].
  split; [exact Ha|].
  rewrite events_emit, drop_app_length, take_app_length. now split.
Qed.

(** X3. A queue of requests none of which has a function in the table is
    served with the server left exactly as it was: each turn logs the
    request, copies its frame, sets [IllegalFunction] and writes. *)
Theorem unregistered_queue_keeps_server (s : Server) (requests : list (Request F))
    (w : World) :
  Forall (fun request => slot s (GetFunction (frame request)) = None) requests ->
  handler s requests w = Return s (emit (flat_map (illegalTurn w) requests) w).
Proof.
  intros Hall. revert w. induction Hall as [|request rest Hs _ IH]; intros w.
  - cbn [handler flat_map]. unfold ret, emit. destruct w. cbn. now rewrite app_nil_r.
  - cbn [handler flat_map]. unfold bind, serve, bind.
    rewrite (handle_absent _ _ _ Hs). unfold conn_Write.
    change (broken (emit _ w)) with (broken w).
    assert (forall es, Return (A := Server) s (emit (es ++ flat_map (illegalTurn w) rest) w)
            = handler s rest (emit es w)) as Hrest.
    { intros es. rewrite IH, emit_emit. reflexivity. }
    unfold illegalTurn at 1, writeError.
    destruct (bool_decide (conn request ∈ broken w)); unfold ret;
      rewrite emit_emit; symmetry; apply Hrest.
Qed.

(** X4. Registering nil for a code removes its function: a request with
    that code is then answered [IllegalFunction], with no payload, and the
    server stays as the registration left it.  No bound on the code is
    needed. *)
Theorem nil_registration_unregisters (s : Server) (request : Request F) (w : World) :
  slot (RegisterFunctionHandler (GetFunction (frame request)) None s)
    (GetFunction (frame request)) = None /\
  handle (RegisterFunctionHandler (GetFunction (frame request)) None s) request w =
    Return (SetException (AddrOf IllegalFunction) (Copy (frame request)),
            RegisterFunctionHandler (GetFunction (frame request)) None s)
      (emit [LogFunction (GetFunction (frame request)) (GetData (frame request));
             FrameCopy; FrameSetException (AddrOf IllegalFunction)] w).
Proof.
  assert (slot (RegisterFunctionHandler (GetFunction (frame request)) None s)
            (GetFunction (frame request)) = None) as Hs.
  { unfold RegisterFunctionHandler, slot, assign_function, set_function.
    cbn [function].
    destruct (decide (N.to_nat (GetFunction (frame request)) < length (function s))%nat)
      as [Hlt|Hge].
    - now rewrite list_lookup_insert_eq.
    - rewrite list_insert_ge by lia. now rewrite lookup_ge_None_2 by lia. }
  split; [exact Hs|]. now apply handle_absent.
Qed.

End LoopFacts.

(** ** Registrations *)

(** X5. Of two registrations for the same code the later one stands alone,
    and registrations for two different codes can be made in either
    order. *)
Theorem registrations_compose (s : Server) (code code' : N) (f g h : option Handler) :
  code <> code' ->
  RegisterFunctionHandler code f (RegisterFunctionHandler code g s)
    = RegisterFunctionHandler code f s /\
  RegisterFunctionHandler code f (RegisterFunctionHandler code' h s)
    = RegisterFunctionHandler code' h (RegisterFunctionHandler code f s).
Proof.
  intros Hne. unfold RegisterFunctionHandler, assign_function, set_function.
  cbn [Debug listeners ports requestChan function DiscreteInputs Coils
       HoldingRegisters InputRegisters].
  split; f_equal.
  - apply list_insert_insert_eq.
  - apply list_insert_insert_ne. lia.
Qed.

(** ** Checkpoints, further *)

Section CheckpointMore.
Context {gob : Gob}.

(** X6. When [saveState] returns, the checkpoint file holds the encoding of
    the four arrays and the line "done" is logged.  When it exits, the
    status is 1 and "done" is not logged: either the encoding failed or the
    file could not be opened, and no file has changed; or the write failed
    after the file was opened, and the checkpoint is left holding only the
    bytes stored so far.  In every case all other files are as they
    were. *)
Theorem saveState_writes_only_checkpoint (s : Server) (w : World) :
  (forall w1, saveState s w = Return tt w1 ->
     exists buf,
       gobEncode (snapshot s) = Some buf /\ disk w = DiskAccepts /\
       (exists r, fs w1 !! checkpointFile = Some (mkFile buf r)) /\
       (forall path, path <> checkpointFile -> fs w1 !! path = fs w !! path) /\
       events w1 = events w ++ [LogPrintln "saving state . . ."; LogPrintln "done"]) /\
  (forall c w1, saveState s w = Exit c w1 ->
     c = 1 /\
     (forall path, path <> checkpointFile -> fs w1 !! path = fs w !! path) /\
     (exists err,
        events w1 = events w ++ [LogPrintln "saving state . . ."; LogFatal err]) /\
     ((gobEncode (snapshot s) = None /\ fs w1 = fs w) \/
      (exists buf, gobEncode (snapshot s) = Some buf /\ disk w = DiskRefuses /\
                   fs w1 = fs w) \/
      (exists buf n r, gobEncode (snapshot s) = Some buf /\ disk w = DiskFailsAfter n /\
                       fs w1 !! checkpointFile = Some (mkFile (take n buf) r)))).
Proof.
  rewrite saveState_spec. split.
  - intros w1. destruct (gobEncode (snapshot s)) as [buf|]; [|discriminate].
    destruct (disk w); try discriminate.
    intros [= <-]. exists buf. split; [reflexivity|]. split; [reflexivity|].
    rewrite fs_emit. unfold set_fs. cbn [fs events emit]. split; [|split].
    + eexists. apply lookup_insert_eq.
    + intros path Hp. now apply lookup_insert_ne.
    + reflexivity.
  - intros c w1. destruct (gobEncode (snapshot s)) as [buf|].
    + destruct (disk w) as [| |n]; [discriminate| |].
      * intros [= <- <-]. split; [reflexivity|]. split; [reflexivity|].
        split; [now eexists|]. right. left. now exists buf.
      * intros [= <- <-]. split; [reflexivity|].
        rewrite fs_emit. unfold set_fs. cbn [fs events emit].
        split; [intros path Hp; now apply lookup_insert_ne|].
        split; [now eexists|]. right. right. eexists buf, n, _.
        split; [reflexivity|]. split; [reflexivity|]. apply lookup_insert_eq.
    + intros [= <- <-]. split; [reflexivity|]. split; [reflexivity|].
      split; [now eexists|]. now left.
Qed.

(** X7. [NewServer] returns exactly when there is no checkpoint file or the
    file can be opened and decoded.  In every other case the process exits
    with status 1 after logging the error of [Open] or of [Decode]: no
    channel is made, no loop started, no file changed. *)
Theorem NewServer_returns_iff (w : World) :
  ((exists s w', NewServer w = Return s w') <->
     (fs w !! checkpointFile = None \/
      exists file so, fs w !! checkpointFile = Some file /\ readable file = true /\
                      gobDecode (content file) = Some so)) /\
  (forall c w', NewServer w = Exit c w' ->
     c = 1 /\ fs w' = fs w /\ nextChan w' = nextChan w /\
     exists err, (err = ErrOpen \/ err = ErrDecode) /\
       events w' = events w ++ [LogPrintln "restoring state . . ."; LogFatal err]).
Proof.
  rewrite NewServer_spec, restoreState_spec.
  destruct (fs w !! checkpointFile) as [file|] eqn:Hf.
  - destruct (readable file) eqn:Hr.
    + destruct (gobDecode (content file)) as [so|] eqn:Hd.
      * split; [|discriminate]. split; [|eauto].
        intros _. right. now exists file, so.
      * split.
        -- split; [intros (? & ? & [=])|].
           intros [[=]|(file' & so & [= <-] & _ & Hd')]. congruence.
        -- intros c w' [= <- <-]. repeat split. exists ErrDecode. split; [now right|].
           reflexivity.
    + split.
      * split; [intros (? & ? & [=])|].
        intros [[=]|(file' & so & [= <-] & Hr' & _)]. congruence.
      * intros c w' [= <- <-]. repeat split. exists ErrOpen. split; [now left|].
        reflexivity.
  - split; [|discriminate]. split; [now left|eauto].
Qed.

(** X8. [restoreState] only reads the disk, and restoring again changes
    nothing: from the server and the world the first call left, a second
    call returns that same server. *)
Theorem restoreState_again (s s1 : Server) (w w1 : World) :
  restoreState s w = Return s1 w1 ->
  fs w1 = fs w /\
  restoreState s1 w1 =
    Return s1 (emit [LogPrintln "restoring state . . ."; LogPrintln "done"] w1).
Proof.
  rewrite !restoreState_spec.
  destruct (fs w !! checkpointFile) as [file|] eqn:Hf.
  - destruct (readable file) eqn:Hr; [|discriminate].
    destruct (gobDecode (content file)) as [so|] eqn:Hd; [|discriminate].
    intros [= <- <-]. split; [reflexivity|].
    rewrite fs_emit, Hf, Hr, Hd. reflexivity.
  - intros [= <- <-]. split; [reflexivity|]. now rewrite fs_emit, Hf.
Qed.

(** X9. A second [NewServer], made in the world the first one left, returns
    a server with the same four arrays and the same dispatch table, and
    the files are still as they were before the first. *)
Theorem NewServer_again (s1 : Server) (w w1 : World) :
  NewServer w = Return s1 w1 ->
  exists s2 w2,
    NewServer w1 = Return s2 w2 /\
    sameMemory s2 s1 /\ function s2 = function s1 /\ fs w2 = fs w.
Proof.
  rewrite !NewServer_spec, !restoreState_spec.
  destruct (fs w !! checkpointFile) as [file|] eqn:Hf.
  - destruct (readable file) eqn:Hr; [|discriminate].
    destruct (gobDecode (content file)) as [so|] eqn:Hd; [|discriminate].
    intros [= <- <-]. cbn [fs]. rewrite ?fs_emit, Hf, Hr, Hd.
    eexists _, _. split; [reflexivity|]. now repeat split.
  - intros [= <- <-]. cbn [fs]. rewrite ?fs_emit, Hf.
    eexists _, _. split; [reflexivity|]. now repeat split.
Qed.

(** X10. The server [NewServer] returns when there is no checkpoint file
    reads zero at every address below 65536 of each of the four arrays and
    nothing at any address from 65536 on; it has no listener and no port,
    [Debug] is off, and its channel is the one just made. *)
Theorem new_memory_is_zero (s : Server) (w w' : World) (addr : N) :
  fs w !! checkpointFile = None -> NewServer w = Return s w' ->
  (addr < 65536 ->
     DiscreteInputs s !! N.to_nat addr = Some x00 /\
     Coils s !! N.to_nat addr = Some x00 /\
     HoldingRegisters s !! N.to_nat addr = Some 0 /\
     InputRegisters s !! N.to_nat addr = Some 0) /\
  (65536 <= addr ->
     DiscreteInputs s !! N.to_nat addr = None /\
     Coils s !! N.to_nat addr = None /\
     HoldingRegisters s !! N.to_nat addr = None /\
     InputRegisters s !! N.to_nat addr = None) /\
  Debug s = false /\ listeners s = [] /\ ports s = [] /\
  requestChan s = Some (nextChan w).
Proof.
  intros Hf. rewrite NewServer_spec, restoreState_spec, Hf. intros [= <- _].
  unfold allocated, make_bytes, make_uint16s.
  cbn [DiscreteInputs Coils HoldingRegisters InputRegisters Debug listeners ports
       requestChan set_requestChan assign_function set_function set_DiscreteInputs
       set_Coils set_HoldingRegisters set_InputRegisters zeroServer nextChan emit].
  split; [|split].
  - intros Ha. rewrite !lookup_replicate_2 by (unfold memorySize; lia). now repeat split.
  - intros Ha.
    assert (replicate memorySize x00 !! N.to_nat addr = None) as ->
      by (apply lookup_replicate_None; unfold memorySize; lia).
    assert (replicate memorySize 0 !! N.to_nat addr = None) as ->
      by (apply lookup_replicate_None; unfold memorySize; lia).
    now repeat split.
  - now repeat split.
Qed.

(** X11. What [saveState] does depends on the four arrays alone: two servers
    with the same arrays, whatever their dispatch tables, listeners, ports
    and flags, are saved alike. *)
Theorem saveState_reads_memory_only (s1 s2 : Server) (w : World) :
  sameMemory s1 s2 -> saveState s1 w = saveState s2 w.
Proof.
  intros (H1 & H2 & H3 & H4). rewrite !saveState_spec.
  unfold snapshot. now rewrite H1, H2, H3, H4.
Qed.

End CheckpointMore.

(** ** A handled request, saved and restored *)

Section RestartFacts.
Context {F : Type} {framer : Framer F} {handlers : Handlers F}.
Context {gob : Gob} {lawful : GobLawful}.

(** X12. What a request left in memory survives a restart: the server
    [handle] leaves, saved in the world [handle] leaves, comes back from
    [NewServer] with the same four arrays. *)
Theorem handled_memory_survives_restart (s s1 : Server) (request : Request F)
    (response : F) (w w1 : World) :
  handle s request w = Return (response, s1) w1 ->
  wellTyped (snapshot s1) -> writable w = true ->
  (forall file, fs w !! checkpointFile = Some file -> readable file = true) ->
  exists w2 s2 w3,
    saveState s1 w1 = Return tt w2 /\
    NewServer w2 = Return s2 w3 /\
    sameMemory s2 s1.
Proof.
  intros Hh Hwt Hw Hr.
  destruct (handle_events s request w) as (response' & s' & es & Hh' & _).
  rewrite Hh in Hh'. injection Hh' as _ _ ->.
  destruct (save_then_NewServer s1 (emit es w) Hwt Hw Hr) as (w2 & w3 & c & Hs & Hn).
  eexists w2, _, w3. split; [exact Hs|]. split; [exact Hn|]. now repeat split.
Qed.

End RestartFacts.

(** ** Closing the transports *)

Lemma close_listeners (ls : list Listener) : forall t : Transports,
  fold_left (fun t listen => snd (listener_Close listen t)) ls t
  = mkTransports (badListeners t) (badPorts t)
      (closeCalls t
       ++ map (fun l => ListenerClose l (bool_decide (l ∈ badListeners t))) ls).
Proof.
  induction ls as [|l ls IH]; intros t.
  - cbn [fold_left map]. rewrite app_nil_r. now destruct t.
  - cbn [fold_left map]. rewrite IH. unfold listener_Close.
    cbn [snd badListeners badPorts closeCalls]. now rewrite <- app_assoc.
Qed.

Lemma close_ports (ps : list Port) : forall t : Transports,
  fold_left (fun t port => snd (port_Close port t)) ps t
  = mkTransports (badListeners t) (badPorts t)
      (closeCalls t
       ++ map (fun p => PortClose p (bool_decide (p ∈ badPorts t))) ps).
Proof.
  induction ps as [|p ps IH]; intros t.
  - cbn [fold_left map]. rewrite app_nil_r. now destruct t.
  - cbn [fold_left map]. rewrite IH. unfold port_Close.
    cbn [snd badListeners badPorts closeCalls]. now rewrite <- app_assoc.
Qed.

(** X13. [Close] calls [Close] once on every listener of the server, in
    order, and then once on every port, in order: a call that answers an
    error does not keep the later ones from being made. *)
Theorem Close_attempts_every_transport (s : Server) (t : Transports) :
  closeCalls (Close s t)
  = closeCalls t
    ++ map (fun l => ListenerClose l (bool_decide (l ∈ badListeners t))) (listeners s)
    ++ map (fun p => PortClose p (bool_decide (p ∈ badPorts t))) (ports s) /\
  (forall l, l ∈ listeners s ->
     ListenerClose l (bool_decide (l ∈ badListeners t)) ∈ closeCalls (Close s t)) /\
  (forall p, p ∈ ports s ->
     PortClose p (bool_decide (p ∈ badPorts t)) ∈ closeCalls (Close s t)) /\
  length (closeCalls (Close s t))
  = (length (closeCalls t) + length (listeners s) + length (ports s))%nat.
Proof.
  assert (closeCalls (Close s t)
          = closeCalls t
            ++ map (fun l => ListenerClose l (bool_decide (l ∈ badListeners t)))
                 (listeners s)
            ++ map (fun p => PortClose p (bool_decide (p ∈ badPorts t))) (ports s))
    as E.
  { unfold Close. cbv zeta. rewrite close_listeners, close_ports.
    cbn [closeCalls badListeners badPorts]. now rewrite <- app_assoc. }
  split; [exact E|]. rewrite E. split; [|split].
  - intros l Hl. rewrite !elem_of_app. right. left.
    apply list_elem_of_In, in_map_iff. exists l.
    split; [reflexivity|now apply list_elem_of_In].
  - intros p Hp. rewrite !elem_of_app. right. right.
    apply list_elem_of_In, in_map_iff. exists p.
    split; [reflexivity|now apply list_elem_of_In].
  - rewrite !length_app, !length_map. lia.
Qed.

(** ** The further properties at concrete inputs *)

Lemma written_wellTyped : wellTyped (snapshot Cases.written).
Proof.
  destruct fullSize_allocated as (H1 & H2 & H3 & H4).
  apply fullSize_wellTyped.
  - unfold fullSize, len in *. unfold Cases.written.
    cbn [DiscreteInputs Coils HoldingRegisters InputRegisters set_HoldingRegisters].
    rewrite length_insert. now repeat split.
  - apply Forall_insert; [apply Forall_replicate|]; now vm_compute.
  - apply Forall_replicate. now vm_compute.
Qed.

(** A request for the registered code 65 on connection 1, then a request
    for code 99 on the broken connection 9. *)
Lemma handler_writes_in_arrival_order_witness :
  exists s' w',
    handler Cases.writer [Scenario.request 65 1%nat; Scenario.request 99 9%nat]
      Scenario.freshWorld = Return s' w' /\
    s' = Cases.written /\
    s' = snd (answerAll Cases.writer
                [Scenario.request 65 1%nat; Scenario.request 99 9%nat]) /\
    writeEvents (drop (length (events Scenario.freshWorld)) (events w'))
    = zip_with (fun request response =>
                  ConnWrite (conn request) (Bytes response)
                    (writeError Scenario.freshWorld (conn request)))
        [Scenario.request 65 1%nat; Scenario.request 99 9%nat]
        (fst (answerAll Cases.writer
                [Scenario.request 65 1%nat; Scenario.request 99 9%nat])) /\
    writeEvents (events w')
    = [ConnWrite 1%nat [x41] None;
       ConnWrite 9%nat [x63; x00; x64] (Some ErrConnWrite)].
Proof.
  assert (handler Cases.writer [Scenario.request 65 1%nat; Scenario.request 99 9%nat]
            Scenario.freshWorld
          = Return Cases.written
              (emit [LogFunction 65 [x00; x64]; FrameCopy; FrameSetData [];
                     ConnWrite 1%nat [x41] None;
                     LogFunction 99 [x00; x64]; FrameCopy;
                     FrameSetException (AddrOf IllegalFunction);
                     ConnWrite 9%nat [x63; x00; x64] (Some ErrConnWrite)]
                 Scenario.freshWorld)) as Hh by reflexivity.
  eexists _, _. split; [exact Hh|]. split; [reflexivity|].
  destruct (handler_writes_in_arrival_order _ _ _ _ _ Hh) as (Hs & _ & _ & Hw & _).
  split; [exact Hs|]. split; [exact Hw|reflexivity].
Defined.

(** Three requests for codes 99 and 200 on a new server. *)
Lemma unregistered_queue_keeps_server_witness :
  Forall (fun request => slot allocated (GetFunction (frame request)) = None)
    Cases.queue /\
  handler allocated Cases.queue Scenario.freshWorld
    = Return allocated
        (emit (flat_map (illegalTurn Scenario.freshWorld) Cases.queue)
           Scenario.freshWorld) /\
  writesOf (flat_map (illegalTurn Scenario.freshWorld) Cases.queue)
    = [9%nat; 1%nat; 2%nat].
Proof.
  assert (Forall (fun request => slot allocated (GetFunction (frame request)) = None)
            Cases.queue) as Hq.
  { repeat (constructor; [vm_compute; reflexivity|]). constructor. }
  split; [exact Hq|]. split; [|reflexivity].
  exact (unregistered_queue_keeps_server allocated Cases.queue Scenario.freshWorld Hq).
Defined.

(** Registrations for codes 65 and 66 on a new server. *)
Lemma registrations_compose_witness :
  65 <> 66 /\
  RegisterFunctionHandler 65 (Some (Custom 0))
    (RegisterFunctionHandler 65 (Some (Custom 1)) allocated)
    = RegisterFunctionHandler 65 (Some (Custom 0)) allocated /\
  RegisterFunctionHandler 65 (Some (Custom 0))
    (RegisterFunctionHandler 66 (Some (Custom 2)) allocated)
    = RegisterFunctionHandler 66 (Some (Custom 2))
        (RegisterFunctionHandler 65 (Some (Custom 0)) allocated).
Proof.
  assert (65 <> 66) as Hne by discriminate.
  split; [exact Hne|].
  exact (registrations_compose allocated 65 66 (Some (Custom 0)) (Some (Custom 1))
           (Some (Custom 2)) Hne).
Defined.

(** A new server saved where the directory refuses writes, and where the
    write fails once three bytes are stored. *)
Lemma saveState_writes_only_checkpoint_witness :
  saveState allocated Cases.readOnlyWorld
    = Exit 1 (emit [LogPrintln "saving state . . ."; LogFatal ErrWriteFile]
                Cases.readOnlyWorld) /\
  (exists w1,
     saveState allocated Cases.fullDiskWorld = Exit 1 w1 /\
     fs Cases.fullDiskWorld !! checkpointFile
       = Some (mkFile (RefGob.encode Scenario.shortState) true) /\
     fs w1 !! checkpointFile
       = Some (mkFile (take 3 (RefGob.encode (snapshot allocated))) true) /\
     fs w1 !! "other.txt" = fs Cases.fullDiskWorld !! "other.txt" /\
     events w1 = [LogPrintln "saving state . . ."; LogFatal ErrWriteFile]).
Proof.
  assert (saveState allocated Cases.readOnlyWorld
          = Exit 1 (emit [LogPrintln "saving state . . ."; LogFatal ErrWriteFile]
                      Cases.readOnlyWorld)) as Hs by reflexivity.
  split; [exact Hs|].
  assert (exists w1, saveState allocated Cases.fullDiskWorld = Exit 1 w1 /\
            fs w1 !! checkpointFile
              = Some (mkFile (take 3 (RefGob.encode (snapshot allocated))) true) /\
            events w1 = [LogPrintln "saving state . . ."; LogFatal ErrWriteFile])
    as (w1 & Hs1 & Hcp & Hev).
  { eexists. rewrite saveState_spec. cbn [gobEncode RefGob.codec disk Cases.fullDiskWorld].
    split; [reflexivity|]. split; [|reflexivity].
    rewrite fs_emit. unfold set_fs. cbn [fs]. rewrite lookup_insert_eq.
    reflexivity. }
  exists w1. split; [exact Hs1|].
  split; [vm_compute; reflexivity|]. split; [exact Hcp|]. split; [|exact Hev].
  destruct (saveState_writes_only_checkpoint allocated Cases.fullDiskWorld)
    as (_ & Hexit).
  destruct (Hexit _ _ Hs1) as (_ & Hother & _).
  apply Hother. discriminate.
Defined.

(** A checkpoint file that cannot be opened. *)
Lemma NewServer_returns_iff_witness :
  NewServer Cases.lockedWorld
    = Exit 1 (emit [LogPrintln "restoring state . . ."; LogFatal ErrOpen]
                Cases.lockedWorld) /\
  fs (emit [LogPrintln "restoring state . . ."; LogFatal ErrOpen] Cases.lockedWorld)
    = fs Cases.lockedWorld /\
  ~ (exists s w', NewServer Cases.lockedWorld = Return s w').
Proof.
  assert (NewServer Cases.lockedWorld
          = Exit 1 (emit [LogPrintln "restoring state . . ."; LogFatal ErrOpen]
                      Cases.lockedWorld)) as Hn by (vm_compute; reflexivity).
  split; [exact Hn|].
  destruct (NewServer_returns_iff Cases.lockedWorld) as (Hiff & Hexit).
  destruct (Hexit _ _ Hn) as (_ & Hfs & _).
  split; [exact Hfs|].
  intros (s & w' & Hr). rewrite Hn in Hr. discriminate Hr.
Defined.

(** A checkpoint of one element per array, restored twice. *)
Lemma restoreState_again_witness :
  restoreState allocated (Scenario.worldWith (RefGob.encode Scenario.shortState))
    = Return (overwrite Scenario.shortState allocated)
        (emit [LogPrintln "restoring state . . ."; LogPrintln "done"]
           (Scenario.worldWith (RefGob.encode Scenario.shortState))) /\
  restoreState (overwrite Scenario.shortState allocated)
    (emit [LogPrintln "restoring state . . ."; LogPrintln "done"]
       (Scenario.worldWith (RefGob.encode Scenario.shortState)))
    = Return (overwrite Scenario.shortState allocated)
        (emit [LogPrintln "restoring state . . ."; LogPrintln "done"]
           (emit [LogPrintln "restoring state . . ."; LogPrintln "done"]
              (Scenario.worldWith (RefGob.encode Scenario.shortState)))).
Proof.
  assert (restoreState allocated (Scenario.worldWith (RefGob.encode Scenario.shortState))
          = Return (overwrite Scenario.shortState allocated)
              (emit [LogPrintln "restoring state . . ."; LogPrintln "done"]
                 (Scenario.worldWith (RefGob.encode Scenario.shortState)))) as Hr.
  { rewrite restoreState_spec. unfold Scenario.worldWith at 1. cbn [fs].
    rewrite lookup_singleton_eq. cbn [readable content gobDecode RefGob.codec].
    now rewrite shortState_decodes. }
  split; [exact Hr|].
  exact (proj2 (restoreState_again _ _ _ _ Hr)).
Defined.

(** Two servers made one after the other in the fresh world. *)
Lemma NewServer_again_witness :
  NewServer Scenario.freshWorld
    = Return (set_requestChan (Some 0%nat) allocated)
        (mkWorld ∅ DiskAccepts [9%nat] 1%nat
           [LogPrintln "restoring state . . ."; LogPrintln "done";
            MakeChan 0%nat; GoHandler]) /\
  exists s2 w2,
    NewServer (mkWorld ∅ DiskAccepts [9%nat] 1%nat
                 [LogPrintln "restoring state . . ."; LogPrintln "done";
                  MakeChan 0%nat; GoHandler]) = Return s2 w2 /\
    sameMemory s2 (set_requestChan (Some 0%nat) allocated) /\
    function s2 = function (set_requestChan (Some 0%nat) allocated) /\
    fs w2 = fs Scenario.freshWorld.
Proof.
  assert (NewServer Scenario.freshWorld
          = Return (set_requestChan (Some 0%nat) allocated)
              (mkWorld ∅ DiskAccepts [9%nat] 1%nat
                 [LogPrintln "restoring state . . ."; LogPrintln "done";
                  MakeChan 0%nat; GoHandler])) as Hn by reflexivity.
  split; [exact Hn|].
  exact (NewServer_again _ _ _ Hn).
Defined.

(** Address 100 and address 65536 of a new server. *)
Lemma new_memory_is_zero_witness :
  fs Cases.otherFileWorld !! checkpointFile = None /\
  NewServer Cases.otherFileWorld
    = Return (set_requestChan (Some 0%nat) allocated)
        (mkWorld (fs Cases.otherFileWorld) DiskAccepts [9%nat] 1%nat
           [LogPrintln "restoring state . . ."; LogPrintln "done";
            MakeChan 0%nat; GoHandler]) /\
  HoldingRegisters (set_requestChan (Some 0%nat) allocated) !! N.to_nat 100 = Some 0 /\
  Coils (set_requestChan (Some 0%nat) allocated) !! N.to_nat 65535 = Some x00 /\
  Coils (set_requestChan (Some 0%nat) allocated) !! N.to_nat 65536 = None.
Proof.
  assert (fs Cases.otherFileWorld !! checkpointFile = None) as Hf
    by (vm_compute; reflexivity).
  assert (NewServer Cases.otherFileWorld
          = Return (set_requestChan (Some 0%nat) allocated)
              (mkWorld (fs Cases.otherFileWorld) DiskAccepts [9%nat] 1%nat
                 [LogPrintln "restoring state . . ."; LogPrintln "done";
                  MakeChan 0%nat; GoHandler])) as Hn.
  { rewrite NewServer_spec, restoreState_spec, Hf. reflexivity. }
  split; [exact Hf|]. split; [exact Hn|].
  destruct (new_memory_is_zero _ _ _ 100 Hf Hn) as (H100 & _).
  destruct (new_memory_is_zero _ _ _ 65535 Hf Hn) as (Hlast & _).
  destruct (new_memory_is_zero _ _ _ 65536 Hf Hn) as (_ & Hout & _).
  split; [exact (proj1 (proj2 (proj2 (H100 eq_refl))))|].
  split; [exact (proj1 (proj2 (Hlast eq_refl)))|].
  assert (65536 <= 65536) as Hle by discriminate.
  exact (proj1 (proj2 (Hout Hle))).
Defined.

(** A new server and the same server with a function registered. *)
Lemma saveState_reads_memory_only_witness :
  sameMemory Cases.writer allocated /\
  function Cases.writer <> function allocated /\
  saveState Cases.writer Scenario.freshWorld = saveState allocated Scenario.freshWorld.
Proof.
  assert (sameMemory Cases.writer allocated) as Hm by (now repeat split).
  split; [exact Hm|]. split.
  - intros Hf. apply (f_equal (fun l => l !! 65%nat)) in Hf.
    vm_compute in Hf. discriminate Hf.
  - exact (saveState_reads_memory_only _ _ Scenario.freshWorld Hm).
Defined.

(** The function registered for code 65 stores 1234 in holding register
    100; the server is saved and a new one made. *)
Lemma handled_memory_survives_restart_witness :
  handle Cases.writer (Scenario.request 65 1%nat) Scenario.freshWorld
    = Return (SetData [] (Copy (frame (Scenario.request 65 1%nat))), Cases.written)
        (emit (handledEvents 65 [x00; x64] [] (AddrOf Success)) Scenario.freshWorld) /\
  wellTyped (snapshot Cases.written) /\
  writable Scenario.freshWorld = true /\
  exists w2 s2 w3,
    saveState Cases.written
      (emit (handledEvents 65 [x00; x64] [] (AddrOf Success)) Scenario.freshWorld)
      = Return tt w2 /\
    NewServer w2 = Return s2 w3 /\
    sameMemory s2 Cases.written /\
    HoldingRegisters s2 !! 100%nat = Some 1234.
Proof.
  assert (handle Cases.writer (Scenario.request 65 1%nat) Scenario.freshWorld
          = Return (SetData [] (Copy (frame (Scenario.request 65 1%nat))), Cases.written)
              (emit (handledEvents 65 [x00; x64] [] (AddrOf Success))
                 Scenario.freshWorld)) as Hh.
  { assert (slot Cases.writer (GetFunction (frame (Scenario.request 65 1%nat)))
            = Some (Custom 2)) as Hs by (vm_compute; reflexivity).
    assert (call (Custom 2) Cases.writer (frame (Scenario.request 65 1%nat))
            = ([], AddrOf Success, Cases.written)) as Hc by reflexivity.
    rewrite (handle_present _ _ _ Scenario.freshWorld _ _ _ Hs Hc). reflexivity. }
  assert (writable Scenario.freshWorld = true) as Hw by reflexivity.
  assert (forall file, fs Scenario.freshWorld !! checkpointFile = Some file ->
            readable file = true) as Hr by (intros file Hf; discriminate Hf).
  split; [exact Hh|]. split; [exact written_wellTyped|]. split; [exact Hw|].
  destruct (handled_memory_survives_restart (lawful := RefGob_lawful)
              _ _ _ _ _ _ Hh written_wellTyped Hw Hr)
    as (w2 & s2 & w3 & Hs & Hn & Hm).
  exists w2, s2, w3. split; [exact Hs|]. split; [exact Hn|]. split; [exact Hm|].
  destruct Hm as (_ & _ & -> & _).
  apply list_lookup_insert_eq.
  unfold Cases.writer, RegisterFunctionHandler, allocated, make_uint16s, memorySize.
  cbn [HoldingRegisters assign_function set_function set_InputRegisters
       set_HoldingRegisters].
  rewrite length_replicate. lia.
Defined.

(** Two listeners and a port, the first listener failing to close. *)
Lemma Close_attempts_every_transport_witness :
  closeCalls (Close Cases.listening Cases.transports)
    = [ListenerClose 4%nat true; ListenerClose 5%nat false; PortClose 6%nat false] /\
  closeCalls (Close allocated Cases.transports) = [].
Proof.
  split.
  - exact (proj1 (Close_attempts_every_transport Cases.listening Cases.transports)).
  - exact (proj1 (Close_attempts_every_transport allocated Cases.transports)).
Defined.
